(** * Firmware event-trace collector of the amdxdna driver

    A shallow embedding of [src/driver/amdxdna/aie2_event_trace.c]:
    the enable/disable state machine, the trace-session lifecycle, the
    ring-buffer drain and the record decoder, followed by the properties
    the specification states about them.

    Conventions.
    - C integers are [Z] with their wrap-around written out ([u32], [u64]).
    - Memory regions are [list byte]; the session's DMA region is split
      into its log area and the trailing metadata block.
    - Every C function is a computation in the monad [M]: it reads and
      updates the machine [state] and emits the [event]s it performs on
      the outside world (register writes, allocator and interrupt calls,
      firmware messages, copies, log lines), in program order.
    - The results of the external collaborators (allocator, interrupt
      registration, mailbox, clock) are read from an [env]. *)

From Stdlib Require Import ZArith Lia Strings.Byte String.
From stdpp Require Import base list.

Local Open Scope Z_scope.

(** ** Machine integers *)

Definition u32 (x : Z) : Z := x mod 2 ^ 32.
Definition u64 (x : Z) : Z := x mod 2 ^ 64.

(** [-ENOMEM] *)
Definition ENOMEM : Z := 12.

(** ** Constants of the driver headers

    [aie2_pci.h] and [aie2_msg_priv.h] are not part of the unit; the
    constants the code takes from them are the fields of a [config]. *)

Record config := Config {
  TRACE_EVENT_BUFFER_SIZE : Z;
  TRACE_EVENT_BUFFER_METADATA_SIZE : Z;
  MAX_ONE_TIME_LOG_INFO_LEN : Z;
  LOG_BUF_MB_IOHUB_PTR : Z;
  LOG_BUFFER_IRQ : Z;
  AIE2_DEV_START : Z;
  EVENT_TRACE_ENABLED : Z
}.

(** ** Data model *)

(** [struct trace_event_metadata]: two 64-bit counters (the padding words
    are never read or written). *)
Record trace_event_metadata := Metadata {
  tail_offset : Z;
  head_offset : Z
}.

(** [struct trace_event_log_data] *)
Record trace_event_log_data := LogData {
  counter : Z;       (* uint64_t *)
  payload_hi : Z;    (* uint16_t *)
  type : Z;          (* uint16_t *)
  payload_low : Z    (* uint32_t *)
}.

(** The DMA region of a session: [rb_size] bytes of log area followed by
    the metadata block. *)
Record ring_buffer := Ring {
  log_area : list byte;
  metadata : trace_event_metadata
}.

(** [struct event_trace_req_buf]; [req_addr] is the address [kzalloc]
    returned for the structure itself. *)
Record event_trace_req_buf := ReqBuf {
  req_addr : Z;
  buf : Z;
  dram_buffer_address : Z;   (* trace_req.dram_buffer_address, 64 bit *)
  dram_buffer_size : Z;      (* trace_req.dram_buffer_size, 32 bit *)
  log_ch_irq : Z;
  resp_timestamp : Z;
  sys_start_time : Z
}.

Record pci_dev := PciDev {
  device : Z;
  revision : Z
}.

(** The fields of [struct amdxdna_dev_hdl] the unit uses. [pdev] is
    [to_pci_dev(ndev->xdna->ddev.dev)]. *)
Record amdxdna_dev_hdl := Ndev {
  pdev : option pci_dev;
  mbox_base : Z;
  dev_status : Z;
  event_trace_enabled : Z;
  event_trace_req : option event_trace_req_buf
}.

Inductive log_level := ERR | INFO | DBG | WARN.

(** What the code does to the outside world. *)
Inductive event :=
| Log (lvl : log_level) (fmt : string) (args : list Z)
| Writel (val addr : Z)
| Kzalloc (res : option Z)
| Kfree (p : Z)
| DmaAlloc (size : Z) (res : option (Z * Z))
| DmaFree (size cpu dma : Z)
| RequestIrq (irq ret : Z)
| FreeIrq (irq : Z)
| FwStartTrace (addr size ret : Z)
| FwStopTrace (ret : Z)
| TraceMboxIrq (irq : Z)
| HeadOffsetStore (val : Z)
| Memcpy (dst src len : Z)
| NulStore (idx : Z).

(** The machine: the device handle, the live kernel resources, the
    contents of the session's DMA region, the global scratch buffer and
    whether the caller holds [xdna->dev_lock]. *)
Record state := State {
  ndev : amdxdna_dev_hdl;
  kmem_live : list Z;
  dma_live : list Z;
  irq_live : list Z;
  ring : ring_buffer;
  g_fwLogBuf : list byte;
  dev_locked : bool
}.

(** Results of the external collaborators during one call. *)
Record env := Env {
  kzalloc_res : option Z;
  dma_alloc_res : option (Z * Z);
  pci_irq_vector_res : Z;
  request_irq_res : Z;
  start_event_trace_res : Z;
  current_timestamp : Z;
  ktime_get_ns : Z;
  stop_event_trace_res : Z
}.

(** ** The state-and-trace monad *)

Definition M (A : Type) : Type := state -> A * state * list event.

Definition ret {A} (a : A) : M A := fun s => (a, s, []).

Definition bind {A B} (m : M A) (k : A -> M B) : M B :=
  fun s =>
    let '(a, s1, t1) := m s in
    let '(b, s2, t2) := k a s1 in
    (b, s2, t1 ++ t2).

Definition get : M state := fun s => (s, s, []).
Definition put (s : state) : M unit := fun _ => (tt, s, []).
Definition emit (e : event) : M unit := fun s => (tt, s, [e]).

Declare Scope drv_scope.
Delimit Scope drv_scope with drv.
Notation "x <- c ;; k" := (bind c (fun x => k))
  (at level 100, c at next level, right associativity) : drv_scope.
Notation "c ;;; k" := (bind c (fun _ => k))
  (at level 100, right associativity) : drv_scope.
Local Open Scope drv_scope.

Definition result {A} (r : A * state * list event) : A := r.1.1.
Definition final {A} (r : A * state * list event) : state := r.1.2.
Definition events {A} (r : A * state * list event) : list event := r.2.

(** Field updates. *)
Definition set_ndev (d : amdxdna_dev_hdl) (s : state) : state :=
  State d (kmem_live s) (dma_live s) (irq_live s) (ring s) (g_fwLogBuf s)
        (dev_locked s).
Definition set_kmem_live (l : list Z) (s : state) : state :=
  State (ndev s) l (dma_live s) (irq_live s) (ring s) (g_fwLogBuf s)
        (dev_locked s).
Definition set_dma_live (l : list Z) (s : state) : state :=
  State (ndev s) (kmem_live s) l (irq_live s) (ring s) (g_fwLogBuf s)
        (dev_locked s).
Definition set_irq_live (l : list Z) (s : state) : state :=
  State (ndev s) (kmem_live s) (dma_live s) l (ring s) (g_fwLogBuf s)
        (dev_locked s).
Definition set_ring (r : ring_buffer) (s : state) : state :=
  State (ndev s) (kmem_live s) (dma_live s) (irq_live s) r (g_fwLogBuf s)
        (dev_locked s).
Definition set_g_fwLogBuf (b : list byte) (s : state) : state :=
  State (ndev s) (kmem_live s) (dma_live s) (irq_live s) (ring s) b
        (dev_locked s).

Definition set_event_trace_enabled (v : Z) (d : amdxdna_dev_hdl) :=
  Ndev (pdev d) (mbox_base d) (dev_status d) v (event_trace_req d).
Definition set_event_trace_req (r : option event_trace_req_buf)
    (d : amdxdna_dev_hdl) :=
  Ndev (pdev d) (mbox_base d) (dev_status d) (event_trace_enabled d) r.

Definition modify (f : state -> state) : M unit := fun s => (tt, f s, []).
Definition modify_ndev (f : amdxdna_dev_hdl -> amdxdna_dev_hdl) : M unit :=
  modify (fun s => set_ndev (f (ndev s)) s).

(** Releasing a resource drops one occurrence from the live list. *)
Fixpoint release (x : Z) (l : list Z) : list Z :=
  match l with
  | [] => []
  | y :: l' => if Z.eqb x y then l' else y :: release x l'
  end.

(** ** Kernel services and external collaborators *)

Definition kfree (p : Z) : M unit :=
  emit (Kfree p);;;
  modify (fun s => set_kmem_live (release p (kmem_live s)) s).

Definition dma_free_noncoherent (size cpu dma : Z) : M unit :=
  emit (DmaFree size cpu dma);;;
  modify (fun s => set_dma_live (release cpu (dma_live s)) s).

Definition free_irq (irq : Z) : M unit :=
  emit (FreeIrq irq);;;
  modify (fun s => set_irq_live (release irq (irq_live s)) s).

(** [drm_WARN_ON(&xdna->ddev, !mutex_is_locked(&xdna->dev_lock))] *)
Definition warn_unless_locked : M unit :=
  s <- get;;
  if dev_locked s then ret tt
  else emit (Log WARN "!mutex_is_locked(&xdna->dev_lock)" []).

(** C truth value of an integer. *)
Definition truthy (x : Z) : bool := negb (x =? 0).

(** ** [aie2_event_trace.c] *)

Definition clear_event_trace_msix (c : config) : M unit :=
  s <- get;;
  emit (Writel 0 (u64 (u64 (mbox_base (ndev s)) + u64 (LOG_BUF_MB_IOHUB_PTR c)))).

Definition aie2_is_event_trace_supported_on_dev : M Z :=
  s <- get;;
  match pdev (ndev s) with
  | None => emit (Log ERR "pdev is null" []);;; ret 0
  | Some p =>
      emit (Log DBG "Dev id: 0x%x, Dev rev: 0x%x\n" [device p; revision p]);;;
      ret (if (device p =? 0x17f0) && (revision p >=? 0x10) then 1 else 0)
  end.

Definition aie2_set_trace_timestamp (e : env) : M unit :=
  modify_ndev (fun d =>
    match event_trace_req d with
    | None => d
    | Some r =>
        set_event_trace_req
          (Some (ReqBuf (req_addr r) (buf r) (dram_buffer_address r)
                        (dram_buffer_size r) (log_ch_irq r)
                        (current_timestamp e)
                        (u64 (ktime_get_ns e) / 1000))) d
    end).

(** Modelled from the spec: [aie2_start_event_trace] lives in the mailbox
    code, outside this unit. Per the mailbox contract it sends the
    start-trace message carrying the buffer address and size, blocks for
    the reply, and on success seeds the timestamp anchor from the
    response; on failure it returns the error and leaves the session
    allocated. *)
Definition aie2_start_event_trace (e : env) (addr size : Z) : M Z :=
  emit (FwStartTrace addr size (start_event_trace_res e));;;
  if truthy (start_event_trace_res e) then ret (start_event_trace_res e)
  else aie2_set_trace_timestamp e;;; ret 0.

(** Modelled from the spec: [aie2_stop_event_trace] lives in the mailbox
    code, outside this unit; it sends the stop-trace message and returns
    the mailbox status. *)
Definition aie2_stop_event_trace (e : env) : M Z :=
  emit (FwStopTrace (stop_event_trace_res e));;;
  ret (stop_event_trace_res e).

Definition aie2_stop_event_trace_send (e : env) : M Z :=
  s <- get;;
  match event_trace_req (ndev s) with
  | None => emit (Log DBG "Event tracing is not started" []);;; ret 0
  | Some _ => warn_unless_locked;;; aie2_stop_event_trace e
  end.

Definition aie2_event_trace_alloc (c : config) (e : env) : M Z :=
  emit (Kzalloc (kzalloc_res e));;;
  match kzalloc_res e with
  | None => ret (- ENOMEM)
  | Some p =>
      modify (fun s => set_kmem_live (p :: kmem_live s) s);;;
      emit (DmaAlloc (TRACE_EVENT_BUFFER_SIZE c) (dma_alloc_res e));;;
      match dma_alloc_res e with
      | None =>
          (* free_event_trace_req_buf: *)
          modify_ndev (set_event_trace_req None);;;
          kfree p;;;
          ret (- ENOMEM)
      | Some (cpu, dma) =>
          modify (fun s => set_dma_live (cpu :: dma_live s) s);;;
          let size := u32 (TRACE_EVENT_BUFFER_SIZE c) in
          let irq := pci_irq_vector_res e in
          modify_ndev
            (set_event_trace_req (Some (ReqBuf p cpu dma size irq 0 0)));;;
          emit (RequestIrq irq (request_irq_res e));;;
          if truthy (request_irq_res e) then
            emit (Log ERR "Failed to register irq %d ret %d"
                      [LOG_BUFFER_IRQ c; request_irq_res e]);;;
            (* free_dma_trace_buf: *)
            dma_free_noncoherent size cpu dma;;;
            (* free_event_trace_req_buf: *)
            modify_ndev (set_event_trace_req None);;;
            kfree p;;;
            ret (request_irq_res e)
          else
            modify (fun s => set_irq_live (irq :: irq_live s) s);;;
            emit (Log DBG "Start event trace buf addr: 0x%llx size 0x%x"
                      [dma; size]);;;
            ret 0
      end
  end.

Definition aie2_event_trace_free : M unit :=
  s <- get;;
  match event_trace_req (ndev s) with
  | None => ret tt
  | Some req_buf =>
      dma_free_noncoherent (dram_buffer_size req_buf) (buf req_buf)
                           (dram_buffer_address req_buf);;;
      modify_ndev (set_event_trace_req None);;;
      free_irq (log_ch_irq req_buf);;;
      kfree (req_addr req_buf)
  end.

Definition aie2_start_event_trace_send (c : config) (e : env) : M Z :=
  r <- aie2_event_trace_alloc c e;;
  if negb (truthy r) then
    s <- get;;
    match event_trace_req (ndev s) with
    | Some trace_req_buf =>
        warn_unless_locked;;;
        aie2_start_event_trace e (dram_buffer_address trace_req_buf)
                               (dram_buffer_size trace_req_buf)
    | None => ret r (* not reached: a successful alloc published the session *)
    end
  else
    emit (Log ERR "Failed to allocate and register event trace" []);;;
    ret r.

(** [void aie2_assign_event_trace_state(ndev, state)], on an existing
    device handle. *)
Definition aie2_assign_event_trace_state (c : config) (e : env) (st : Z)
    : M unit :=
  sup <- aie2_is_event_trace_supported_on_dev;;
  if negb (truthy sup) then
    emit (Log ERR "Event trace is not supported on this device" [])
  else
    s <- get;;
    if event_trace_enabled (ndev s) =? st then
      emit (Log DBG "Event trace state is already %d" [st])
    else
      modify_ndev (set_event_trace_enabled st);;;
      (if truthy st then
         r <- aie2_start_event_trace_send c e;;
         if truthy r then
           emit (Log ERR "Send start event trace failed, ret %d" [r]);;;
           aie2_event_trace_free
         else ret tt
       else
         if dev_status (ndev s) >=? AIE2_DEV_START c then
           _ <- aie2_stop_event_trace_send e;;
           aie2_event_trace_free
         else emit (Log DBG "Event trace is not started" []));;;
      clear_event_trace_msix c;;;
      emit (Log DBG "Event trace state: %d" [st]).

(** *** The drain *)

(** A pointer to a byte buffer held in the machine state. *)
Record bufptr := BufPtr {
  load : state -> list byte;
  store : list byte -> state -> state
}.

Definition g_fwLogBuf_ptr : bufptr := BufPtr g_fwLogBuf set_g_fwLogBuf.

(** [memcpy(dst + doff, src + soff, n)] on buffers that contain both
    ranges. *)
Definition memcpy (dst : list byte) (doff : Z) (src : list byte) (soff n : Z)
    : list byte :=
  take (Z.to_nat doff) dst
    ++ take (Z.to_nat n) (drop (Z.to_nat soff) src)
    ++ drop (Z.to_nat (doff + n)) dst.

Definition rb_size (c : config) : Z :=
  u32 (TRACE_EVENT_BUFFER_SIZE c - TRACE_EVENT_BUFFER_METADATA_SIZE c).

(** The locals the copy loop updates. *)
Record locals := Locals {
  rd_ptr : Z;
  log_size : Z;
  total_log_size : Z;
  offset : Z
}.

(** [memcpy(kern_buf + offset, sysBuf + rd_ptr, log_size)] as a state
    update. *)
Definition do_copy (kern_buf : bufptr) (offset rd_ptr log_size : Z)
    (s : state) : state :=
  store kern_buf
    (memcpy (load kern_buf s) offset (log_area (ring s)) rd_ptr log_size) s.

(** One pass over the loop body either reaches the loop condition or
    leaves the function through a [return]. *)
Inductive pass :=
| Next (l : locals)
| Return (v : Z) (l : locals).

Definition copy_body (c : config) (kern_buf : bufptr) (wr_ptr_wrap : Z)
    (l : locals) : M pass :=
  let rb := rb_size c in
  let continue (log_size : Z) : M pass :=
    if log_size >? rb then
      emit (Log ERR "log_size > rb_size" []);;;
      ret (Return 0 (Locals (rd_ptr l) log_size (total_log_size l) (offset l)))
    else
      emit (Memcpy (offset l) (rd_ptr l) log_size);;;
      modify (do_copy kern_buf (offset l) (rd_ptr l) log_size);;;
      ret (Next (Locals (u32 (rd_ptr l + log_size) mod rb)
                        log_size
                        (u32 (total_log_size l + log_size))
                        (u32 (offset l + log_size))))
  in
  if wr_ptr_wrap >? rd_ptr l then continue (u32 (wr_ptr_wrap - rd_ptr l))
  else if wr_ptr_wrap <? rd_ptr l then continue (u32 (rb - rd_ptr l))
  else ret (Return 0 l).

(** [do { body } while (rd_ptr < wr_ptr_wrap)], at most [fuel] passes;
    [None] when the fuel runs out. The result carries the locals at the
    point the loop is left. *)
Fixpoint copy_loop (fuel : nat) (c : config) (kern_buf : bufptr)
    (wr_ptr_wrap : Z) (l : locals) : M (option (Z * locals)) :=
  match fuel with
  | O => ret None
  | S fuel' =>
      p <- copy_body c kern_buf wr_ptr_wrap l;;
      match p with
      | Return v l' => ret (Some (v, l'))
      | Next l' =>
          if rd_ptr l' <? wr_ptr_wrap
          then copy_loop fuel' c kern_buf wr_ptr_wrap l'
          else ret (Some (total_log_size l', l'))
      end
  end.

Definition set_head_offset (v : Z) (s : state) : state :=
  set_ring (Ring (log_area (ring s))
                 (Metadata (tail_offset (metadata (ring s))) v)) s.

(** [trace_metadata->head_offset = v] *)
Definition store_head_offset (v : Z) : M unit :=
  emit (HeadOffsetStore v);;;
  modify (set_head_offset v).

(** The values the drain derives from the metadata block before the
    loop. *)
Definition rd_ptr_of (c : config) (m : trace_event_metadata) : Z :=
  u32 (head_offset m mod rb_size c).
Definition wr_ptr_of (m : trace_event_metadata) : Z := u32 (tail_offset m).
Definition wr_ptr_wrap_of (c : config) (m : trace_event_metadata) : Z :=
  wr_ptr_of m mod rb_size c.

Definition aie2_get_trace_event_content (fuel : nat) (c : config)
    (trace_req_buf : event_trace_req_buf) (kern_buf : bufptr)
    : M (option Z) :=
  let rb := rb_size c in
  if rb =? 0 then ret (Some 0)
  else if u64 (buf trace_req_buf + rb) =? 0 then
    emit (Log ERR "FW trace buffer metadata is null!" []);;;
    ret (Some 0)
  else
    s <- get;;
    let trace_metadata := metadata (ring s) in
    let rd := rd_ptr_of c trace_metadata in
    let wr_ptr := wr_ptr_of trace_metadata in
    let wr_ptr_wrap := wr_ptr_wrap_of c trace_metadata in
    store_head_offset wr_ptr;;;
    r <- copy_loop fuel c kern_buf wr_ptr_wrap (Locals rd 0 0 0);;
    ret (option_map fst r).

(** *** The decoder *)

Definition byte_at (b : list byte) (i : Z) : Z :=
  match b !! Z.to_nat i with
  | Some x => Z.of_N (Byte.to_N x)
  | None => 0
  end.

(** Little-endian load of [n] bytes at [off]. *)
Fixpoint load_le (n : nat) (b : list byte) (off : Z) : Z :=
  match n with
  | O => 0
  | S n' => byte_at b off + 256 * load_le n' b (off + 1)
  end.

(** The cast of [str] to a pointer to [struct trace_event_log_data]:
    the record stored at offset [str], fields in little-endian order. *)
Definition load_log_data (b : list byte) (str : Z) : trace_event_log_data :=
  LogData (load_le 8 b str) (load_le 2 b (str + 8)) (load_le 2 b (str + 10))
          (load_le 4 b (str + 12)).

(** The body of the print loop for one record: the payload and the
    host-relative time, as the code computes them. [trace_req_buf] and
    [ndev->event_trace_req] are the same structure. *)
Definition fw_log_line (trace_req_buf : event_trace_req_buf)
    (log_content : trace_event_log_data) : event :=
  let payload :=
    u64 (Z.lor (u64 (Z.shiftl (u64 (payload_hi log_content)) 32))
               (payload_low log_content)) in
  let fwTicks := u64 (counter log_content - resp_timestamp trace_req_buf) in
  let fwTicks := u64 (fwTicks / 24 + sys_start_time trace_req_buf) in
  Log INFO "[%llu][FW] type: 0x%04x payload:0x%016llx"
      [fwTicks; type log_content; payload].

(** [while (str < end) { ...; str += MAX_ONE_TIME_LOG_INFO_LEN; }] with
    [str] and [end] as offsets into [g_fwLogBuf]. *)
Fixpoint print_records (fuel : nat) (c : config)
    (trace_req_buf : event_trace_req_buf) (str end_ : Z) : M (option unit) :=
  match fuel with
  | O => ret None
  | S fuel' =>
      if str <? end_ then
        s <- get;;
        emit (fw_log_line trace_req_buf (load_log_data (g_fwLogBuf s) str));;;
        print_records fuel' c trace_req_buf
                      (str + MAX_ONE_TIME_LOG_INFO_LEN c) end_
      else ret (Some tt)
  end.

Definition aie2_print_trace_event_log (fuel : nat) (c : config)
    : M (option unit) :=
  s <- get;;
  match event_trace_req (ndev s) with
  | None => emit (Log ERR "FW resp trace buffer is null!" []);;; ret (Some tt)
  | Some trace_req_buf =>
      r <- aie2_get_trace_event_content fuel c trace_req_buf g_fwLogBuf_ptr;;
      match r with
      | None => ret None
      | Some log_size =>
          emit (Log DBG "FW log size in bytes %u" [log_size]);;;
          if truthy log_size then
            emit (NulStore log_size);;;
            modify (fun s =>
              set_g_fwLogBuf (<[Z.to_nat log_size := x00]> (g_fwLogBuf s)) s);;;
            print_records fuel c trace_req_buf 0 log_size
          else ret (Some tt)
      end
  end.

Definition IRQ_HANDLED : Z := 1.

Definition log_buffer_irq_handler (fuel : nat) (c : config) (irq : Z)
    : M (option Z) :=
  emit (TraceMboxIrq irq);;;
  clear_event_trace_msix c;;;
  s <- get;;
  if event_trace_enabled (ndev s) =? EVENT_TRACE_ENABLED c then
    r <- aie2_print_trace_event_log fuel c;;
    ret (option_map (fun _ => IRQ_HANDLED) r)
  else ret (Some IRQ_HANDLED).

(** ** Vocabulary of the properties *)

Definition is_log (e : event) : bool :=
  match e with Log _ _ _ => true | _ => false end.

(** The events of a trace other than log lines. *)
Definition effects (t : list event) : list event :=
  List.filter (fun e => negb (is_log e)) t.

Definition is_writel (e : event) : bool :=
  match e with Writel _ _ => true | _ => false end.

(** A copy event, or a diagnostic line. *)
Definition copy_or_log (e : event) : Prop :=
  match e with
  | Memcpy _ _ _ | Log _ _ _ => True
  | _ => False
  end.

(** What the drain may emit when all is well: the head store, copies of
    a positive length below [rb_size], and log lines other than the
    corruption report. *)
Definition drain_event_ok (c : config) (e : event) : Prop :=
  match e with
  | HeadOffsetStore _ => True
  | Memcpy _ _ n => 0 < n < rb_size c
  | Log _ fmt _ => fmt <> "log_size > rb_size"%string
  | _ => False
  end.

(** The index of every NUL store lies inside a [B]-byte buffer. *)
Definition nul_store_ok (B : Z) (e : event) : Prop :=
  match e with
  | NulStore i => 0 <= i < B
  | _ => True
  end.

(** The register write of [clear_event_trace_msix] on device [d]. *)
Definition clear_msix_write (c : config) (d : amdxdna_dev_hdl) : event :=
  Writel 0 (u64 (u64 (mbox_base d) + u64 (LOG_BUF_MB_IOHUB_PTR c))).

(** The trace [t] ends with the events [suffix]. *)
Definition ends_with (suffix t : list event) : Prop :=
  exists before, t = before ++ suffix.

(** The capability gate as a predicate on the device. *)
Definition trace_supported (d : amdxdna_dev_hdl) : Prop :=
  exists p, pdev d = Some p /\ device p = 0x17f0 /\ 0x10 <= revision p.



(** What the value a C function returns tells its caller: an [int]
    status reports a failure when it is nonzero, a [void] return reports
    nothing. *)
Class Status (A : Type) := reports_failure : A -> bool.
#[export] Instance status_int : Status Z := truthy.
#[export] Instance status_void : Status unit := fun _ => false.

(** The C ranges of the fields of a record and of an anchor. *)
Definition record_in_range (r : trace_event_log_data) : Prop :=
  0 <= counter r < 2 ^ 64 /\ 0 <= payload_hi r < 2 ^ 16 /\
  0 <= type r < 2 ^ 16 /\ 0 <= payload_low r < 2 ^ 32.

(** The session a successful [aie2_event_trace_alloc] publishes when
    [kzalloc] returns [p] and the DMA allocator returns [(cpu, dma)], and
    the machine [s] with that session live. *)
Definition fresh_session (c : config) (e : env) (p cpu dma : Z)
    : event_trace_req_buf :=
  ReqBuf p cpu dma (u32 (TRACE_EVENT_BUFFER_SIZE c)) (pci_irq_vector_res e)
         0 0.

Definition with_session (c : config) (e : env) (p cpu dma : Z) (s : state)
    : state :=
  State (set_event_trace_req (Some (fresh_session c e p cpu dma)) (ndev s))
        (p :: kmem_live s) (cpu :: dma_live s)
        (pci_irq_vector_res e :: irq_live s)
        (ring s) (g_fwLogBuf s) (dev_locked s).

(** The specification's formulas, over the integers: the logical payload
    [(payload_high << 32) | payload_low] and the host-relative time
    [device_delta / 24 + sys_start_time], where [device_delta] is the
    record's counter minus the anchor's [resp_timestamp]. *)
Definition spec_logical_payload (r : trace_event_log_data) : Z :=
  Z.lor (Z.shiftl (payload_hi r) 32) (payload_low r).

Definition spec_host_relative_time (a : event_trace_req_buf)
    (r : trace_event_log_data) : Z :=
  (counter r - resp_timestamp a) / 24 + sys_start_time a.

(** ** Example data *)

Module Examples.

(** A configuration with a [B]-byte region and a 64-byte metadata block. *)
Definition config_of (B : Z) : config := Config B 64 16 0x100 0 2 1.

Definition byte_of_nat (i : nat) : byte :=
  match Byte.of_N (N.of_nat (i mod 256)) with
  | Some b => b
  | None => x00
  end.

(** The bytes [0, 1, 2, ...] (modulo 256). *)
Definition ramp (n : nat) : list byte := map byte_of_nat (seq 0 n).

Definition npu : pci_dev := PciDev 0x17f0 0x10.

Definition session : event_trace_req_buf :=
  ReqBuf 0x7000 0x8000 0x9000 1064 5 1000 5000.

(** A machine with a [B]-byte scratch buffer, the given log area and
    cursors, and no live resources recorded. *)
Definition machine (B : Z) (area : list byte) (head tail : Z)
    (enabled : Z) (req : option event_trace_req_buf) : state :=
  State (Ndev (Some npu) 0x1000 2 enabled req) [] [] []
        (Ring area (Metadata tail head)) (repeat x00 (Z.to_nat B)) true.

(** Collaborators that all succeed, and the same with a failing
    start-trace message. *)
Definition env_ok : env :=
  Env (Some 0x7000) (Some (0x8000, 0x9000)) 5 0 0 1000 5000000 0.
Definition env_start_fails : env :=
  Env (Some 0x7000) (Some (0x8000, 0x9000)) 5 0 (-5) 1000 5000000 0.

(** A 16-byte record, little-endian: counter 1048, payload_hi 0x0102,
    type 0x00a5, payload_low 0x03040506. *)
Definition record_bytes : list byte :=
  [x18; x04; x00; x00; x00; x00; x00; x00;
   x02; x01; xa5; x00; x06; x05; x04; x03].

End Examples.

(** ** Vocabulary of the further properties *)

Definition is_fw_start (e : event) : bool :=
  match e with FwStartTrace _ _ _ => true | _ => false end.

Definition is_memcpy (e : event) : bool :=
  match e with Memcpy _ _ _ => true | _ => false end.

(** A published session has its control structure, DMA buffer and
    interrupt line among the live resources. *)
Definition session_backed (s : state) : Prop :=
  match event_trace_req (ndev s) with
  | None => True
  | Some r =>
      In (req_addr r) (kmem_live s) /\ In (buf r) (dma_live s) /\
      In (log_ch_irq r) (irq_live s)
  end.

(** The machine after the session [r] was torn down. *)
Definition torn_down (r : event_trace_req_buf) (s : state) : state :=
  State (set_event_trace_req None (ndev s))
        (release (req_addr r) (kmem_live s))
        (release (buf r) (dma_live s))
        (release (log_ch_irq r) (irq_live s))
        (ring s) (g_fwLogBuf s) (dev_locked s).

(** The events of tearing the session [r] down. *)
Definition teardown_events (r : event_trace_req_buf) : list event :=
  [DmaFree (dram_buffer_size r) (buf r) (dram_buffer_address r);
   FreeIrq (log_ch_irq r); Kfree (req_addr r)].

(** The byte of the log area at physical offset [i]. *)
Definition ring_byte (s : state) (i : Z) : option byte :=
  log_area (ring s) !! Z.to_nat i.

(** The number of strides of length [L] that start below [n]. *)
Definition strides (n L : Z) : nat := Z.to_nat ((n + L - 1) / L).

(** The record of [Examples.record_bytes] with a counter of 976, which is
    24 ticks behind the example anchor. *)
Definition stale_record_bytes : list byte :=
  [xd0; x03; x00; x00; x00; x00; x00; x00;
   x02; x01; xa5; x00; x06; x05; x04; x03].

(** * Properties *)

(** ** Arithmetic of the cursors *)

Lemma u32_small x : 0 <= x < 2 ^ 32 -> u32 x = x.
Proof. apply Z.mod_small. Qed.

Lemma u32_bound x : 0 <= u32 x < 2 ^ 32.
Proof. apply Z.mod_pos_bound. lia. Qed.

Lemma u64_small x : 0 <= x < 2 ^ 64 -> u64 x = x.
Proof. apply Z.mod_small. Qed.

Lemma u64_bound x : 0 <= u64 x < 2 ^ 64.
Proof. apply Z.mod_pos_bound. lia. Qed.

Lemma rb_size_bound c : 0 <= rb_size c < 2 ^ 32.
Proof. apply u32_bound. Qed.

Lemma rd_ptr_bound c m :
  rb_size c <> 0 -> 0 <= rd_ptr_of c m < rb_size c.
Proof.
  intros Hrb. pose proof (rb_size_bound c) as Hb.
  assert (H : 0 <= head_offset m mod rb_size c < rb_size c)
    by (apply Z.mod_pos_bound; lia).
  unfold rd_ptr_of. rewrite u32_small; lia.
Qed.

Lemma wr_ptr_wrap_bound c m :
  rb_size c <> 0 -> 0 <= wr_ptr_wrap_of c m < rb_size c.
Proof.
  intros Hrb. pose proof (rb_size_bound c) as Hb.
  unfold wr_ptr_wrap_of. apply Z.mod_pos_bound. lia.
Qed.

(** ** One pass over the copy loop *)

Section CopyLoop.
Variable c : config.
Variable kern_buf : bufptr.
Variable wr : Z.
Hypothesis wr_range : 0 <= wr < rb_size c.

(** The write cursor is ahead: one segment up to it, and the read
    cursor lands on it. *)
Lemma copy_body_ahead l s :
  0 <= rd_ptr l < wr ->
  copy_body c kern_buf wr l s =
    (Next (Locals wr (wr - rd_ptr l)
                  (u32 (total_log_size l + (wr - rd_ptr l)))
                  (u32 (offset l + (wr - rd_ptr l)))),
     do_copy kern_buf (offset l) (rd_ptr l) (wr - rd_ptr l) s,
     [Memcpy (offset l) (rd_ptr l) (wr - rd_ptr l)]).
Proof.
  intros Hrd. pose proof (rb_size_bound c) as Hb.
  unfold copy_body.
  destruct (Z.gtb_spec wr (rd_ptr l)); [|lia].
  rewrite (u32_small (wr - rd_ptr l)) by lia.
  destruct (Z.gtb_spec (wr - rd_ptr l) (rb_size c)); [lia|].
  replace (rd_ptr l + (wr - rd_ptr l)) with wr by lia.
  rewrite (u32_small wr) by lia.
  rewrite (Z.mod_small wr) by lia.
  reflexivity.
Qed.

(** The write cursor is behind: one segment up to the end of the log
    area, and the read cursor wraps to 0. *)
Lemma copy_body_behind l s :
  wr < rd_ptr l < rb_size c ->
  copy_body c kern_buf wr l s =
    (Next (Locals 0 (rb_size c - rd_ptr l)
                  (u32 (total_log_size l + (rb_size c - rd_ptr l)))
                  (u32 (offset l + (rb_size c - rd_ptr l)))),
     do_copy kern_buf (offset l) (rd_ptr l) (rb_size c - rd_ptr l) s,
     [Memcpy (offset l) (rd_ptr l) (rb_size c - rd_ptr l)]).
Proof.
  intros Hrd. pose proof (rb_size_bound c) as Hb.
  unfold copy_body.
  destruct (Z.gtb_spec wr (rd_ptr l)); [lia|].
  destruct (Z.ltb_spec wr (rd_ptr l)); [|lia].
  rewrite (u32_small (rb_size c - rd_ptr l)) by lia.
  destruct (Z.gtb_spec (rb_size c - rd_ptr l) (rb_size c)); [lia|].
  replace (rd_ptr l + (rb_size c - rd_ptr l)) with (rb_size c) by lia.
  rewrite (u32_small (rb_size c)) by lia.
  rewrite Z_mod_same_full.
  reflexivity.
Qed.

(** The cursors coincide: the function returns 0 at once. *)
Lemma copy_body_level l s :
  rd_ptr l = wr -> copy_body c kern_buf wr l s = (Return 0 l, s, []).
Proof.
  intros Hrd. unfold copy_body.
  destruct (Z.gtb_spec wr (rd_ptr l)); [lia|].
  destruct (Z.ltb_spec wr (rd_ptr l)); [lia|].
  reflexivity.
Qed.

(** The loop, case by case. *)
Lemma copy_loop_ahead fuel l s :
  0 <= rd_ptr l < wr ->
  copy_loop (S fuel) c kern_buf wr l s =
    (Some (u32 (total_log_size l + (wr - rd_ptr l)),
           Locals wr (wr - rd_ptr l)
                  (u32 (total_log_size l + (wr - rd_ptr l)))
                  (u32 (offset l + (wr - rd_ptr l)))),
     do_copy kern_buf (offset l) (rd_ptr l) (wr - rd_ptr l) s,
     [Memcpy (offset l) (rd_ptr l) (wr - rd_ptr l)]).
Proof.
  intros Hrd. cbn [copy_loop]. unfold bind.
  rewrite copy_body_ahead by assumption. cbn [rd_ptr].
  rewrite Z.ltb_irrefl. reflexivity.
Qed.

Lemma copy_loop_level fuel l s :
  rd_ptr l = wr ->
  copy_loop (S fuel) c kern_buf wr l s = (Some (0, l), s, []).
Proof.
  intros Hrd. cbn [copy_loop]. unfold bind.
  rewrite copy_body_level by assumption. reflexivity.
Qed.

Lemma copy_loop_behind_end fuel l s :
  wr = 0 -> 0 < rd_ptr l < rb_size c ->
  copy_loop (S fuel) c kern_buf wr l s =
    (Some (u32 (total_log_size l + (rb_size c - rd_ptr l)),
           Locals 0 (rb_size c - rd_ptr l)
                  (u32 (total_log_size l + (rb_size c - rd_ptr l)))
                  (u32 (offset l + (rb_size c - rd_ptr l)))),
     do_copy kern_buf (offset l) (rd_ptr l) (rb_size c - rd_ptr l) s,
     [Memcpy (offset l) (rd_ptr l) (rb_size c - rd_ptr l)]).
Proof.
  intros Hwr Hrd. cbn [copy_loop]. unfold bind.
  rewrite copy_body_behind by lia. cbn [rd_ptr].
  destruct (Z.ltb_spec 0 wr); [lia|]. reflexivity.
Qed.

Lemma copy_loop_behind_one l s :
  0 < wr < rd_ptr l -> rd_ptr l < rb_size c ->
  result (copy_loop 1 c kern_buf wr l s) = None.
Proof.
  intros Hwr Hrd. cbn [copy_loop]. unfold bind.
  rewrite copy_body_behind by lia. cbn [rd_ptr].
  destruct (Z.ltb_spec 0 wr); [|lia]. reflexivity.
Qed.

Lemma copy_loop_behind_two fuel l s :
  0 < wr < rd_ptr l -> rd_ptr l < rb_size c ->
  let n1 := rb_size c - rd_ptr l in
  let off1 := u32 (offset l + n1) in
  let tot := u32 (u32 (total_log_size l + n1) + wr) in
  copy_loop (S (S fuel)) c kern_buf wr l s =
    (Some (tot, Locals wr wr tot (u32 (off1 + wr))),
     do_copy kern_buf off1 0 wr
       (do_copy kern_buf (offset l) (rd_ptr l) n1 s),
     [Memcpy (offset l) (rd_ptr l) n1; Memcpy off1 0 wr]).
Proof.
  intros Hwr Hrd n1 off1 tot.
  change (copy_loop (S (S fuel)) c kern_buf wr l s)
    with (bind (copy_body c kern_buf wr l)
            (fun p => match p with
                      | Return v l' => ret (Some (v, l'))
                      | Next l' =>
                          if rd_ptr l' <? wr
                          then copy_loop (S fuel) c kern_buf wr l'
                          else ret (Some (total_log_size l', l'))
                      end) s).
  unfold bind at 1.
  rewrite copy_body_behind by lia. cbn [rd_ptr].
  destruct (Z.ltb_spec 0 wr); [|lia].
  rewrite copy_loop_ahead by (cbn [rd_ptr]; lia).
  cbn [rd_ptr total_log_size offset].
  rewrite !Z.sub_0_r. reflexivity.
Qed.
End CopyLoop.

(** ** The drain, case by case *)

Section Drain.
Variable c : config.
Variable trace_req_buf : event_trace_req_buf.
Variable kern_buf : bufptr.
Variable s : state.

Let m := metadata (ring s).
Let rd := rd_ptr_of c m.
Let wr := wr_ptr_wrap_of c m.
Let s1 := set_head_offset (wr_ptr_of m) s.

Hypothesis rb_nonzero : rb_size c <> 0.
Hypothesis metadata_nonnull : u64 (buf trace_req_buf + rb_size c) <> 0.

Lemma drain_unfold fuel :
  aie2_get_trace_event_content fuel c trace_req_buf kern_buf s =
    let '(r, s2, t) := copy_loop fuel c kern_buf wr (Locals rd 0 0 0) s1 in
    (option_map fst r, s2, HeadOffsetStore (wr_ptr_of m) :: t).
Proof.
  unfold aie2_get_trace_event_content.
  destruct (Z.eqb_spec (rb_size c) 0) as [E|_]; [contradiction|].
  destruct (Z.eqb_spec (u64 (buf trace_req_buf + rb_size c)) 0) as [E|_];
    [contradiction|].
  unfold bind, get, store_head_offset, emit, modify, ret. cbn.
  fold m. fold rd. fold wr. fold s1.
  destruct (copy_loop fuel c kern_buf wr (Locals rd 0 0 0) s1) as [[r s2] t].
  rewrite app_nil_r. reflexivity.
Qed.

Lemma drain_level fuel :
  rd = wr ->
  aie2_get_trace_event_content (S fuel) c trace_req_buf kern_buf s =
    (Some 0, s1, [HeadOffsetStore (wr_ptr_of m)]).
Proof.
  intros H. rewrite drain_unfold.
  rewrite copy_loop_level by assumption. reflexivity.
Qed.

Lemma drain_ahead fuel :
  rd < wr ->
  aie2_get_trace_event_content (S fuel) c trace_req_buf kern_buf s =
    (Some (wr - rd), do_copy kern_buf 0 rd (wr - rd) s1,
     [HeadOffsetStore (wr_ptr_of m); Memcpy 0 rd (wr - rd)]).
Proof.
  intros H. rewrite drain_unfold.
  pose proof (rd_ptr_bound c m rb_nonzero) as Hrd.
  pose proof (wr_ptr_wrap_bound c m rb_nonzero) as Hwr.
  pose proof (rb_size_bound c) as Hb.
  fold rd in Hrd. fold wr in Hwr.
  rewrite copy_loop_ahead by (cbn [rd_ptr]; lia).
  cbn [rd_ptr total_log_size offset option_map fst].
  rewrite Z.add_0_l, u32_small by lia. reflexivity.
Qed.

Lemma drain_behind_end fuel :
  wr = 0 -> 0 < rd ->
  aie2_get_trace_event_content (S fuel) c trace_req_buf kern_buf s =
    (Some (rb_size c - rd), do_copy kern_buf 0 rd (rb_size c - rd) s1,
     [HeadOffsetStore (wr_ptr_of m); Memcpy 0 rd (rb_size c - rd)]).
Proof.
  intros H0 H. rewrite drain_unfold.
  pose proof (rd_ptr_bound c m rb_nonzero) as Hrd.
  pose proof (wr_ptr_wrap_bound c m rb_nonzero) as Hwr.
  pose proof (rb_size_bound c) as Hb.
  fold rd in Hrd. fold wr in Hwr.
  rewrite copy_loop_behind_end by (cbn [rd_ptr]; lia).
  cbn [rd_ptr total_log_size offset option_map fst].
  rewrite Z.add_0_l, u32_small by lia. reflexivity.
Qed.

Lemma drain_behind fuel :
  0 < wr < rd ->
  aie2_get_trace_event_content (S (S fuel)) c trace_req_buf kern_buf s =
    (Some (rb_size c - rd + wr),
     do_copy kern_buf (rb_size c - rd) 0 wr
       (do_copy kern_buf 0 rd (rb_size c - rd) s1),
     [HeadOffsetStore (wr_ptr_of m); Memcpy 0 rd (rb_size c - rd);
      Memcpy (rb_size c - rd) 0 wr]).
Proof.
  intros H. rewrite drain_unfold.
  pose proof (rd_ptr_bound c m rb_nonzero) as Hrd.
  pose proof (wr_ptr_wrap_bound c m rb_nonzero) as Hwr.
  pose proof (rb_size_bound c) as Hb.
  fold rd in Hrd. fold wr in Hwr.
  rewrite copy_loop_behind_two by (cbn [rd_ptr]; lia).
  cbn [rd_ptr total_log_size offset option_map fst].
  rewrite !Z.add_0_l, !(u32_small (rb_size c - rd)) by lia.
  rewrite u32_small by lia. reflexivity.
Qed.

Lemma drain_behind_short :
  0 < wr < rd ->
  result (aie2_get_trace_event_content 1 c trace_req_buf kern_buf s) = None.
Proof.
  intros H. rewrite drain_unfold.
  pose proof (rd_ptr_bound c m rb_nonzero) as Hrd.
  pose proof (wr_ptr_wrap_bound c m rb_nonzero) as Hwr.
  fold rd in Hrd. fold wr in Hwr.
  pose proof (copy_loop_behind_one c kern_buf wr Hwr (Locals rd 0 0 0) s1)
    as Hone.
  cbn [rd_ptr] in Hone. specialize (Hone H ltac:(lia)).
  destruct (copy_loop 1 c kern_buf wr (Locals rd 0 0 0) s1) as [[r s2] t].
  unfold result in *. cbn in *. subst r. reflexivity.
Qed.
End Drain.

(** ** Drain correctness on the specification's vectors *)

(** The two vectors of the specification, as runs. *)
Lemma drain_vector_runs :
  (forall fuel c req s,
      (1 <= fuel)%nat ->
      u64 (buf req + rb_size c) <> 0 ->
      rb_size c = 1000 ->
      metadata (ring s) = Metadata 50 10 ->
      aie2_get_trace_event_content fuel c req g_fwLogBuf_ptr s =
        (Some 40,
         set_g_fwLogBuf
           (take 40 (drop 10 (log_area (ring s))) ++ drop 40 (g_fwLogBuf s))
           (set_head_offset 50 s),
         [HeadOffsetStore 50; Memcpy 0 10 40]))
  /\
  (forall fuel c req s,
      (2 <= fuel)%nat ->
      u64 (buf req + rb_size c) <> 0 ->
      rb_size c = 100 ->
      metadata (ring s) = Metadata 120 90 ->
      length (log_area (ring s)) = 100%nat ->
      aie2_get_trace_event_content fuel c req g_fwLogBuf_ptr s =
        (Some 30,
         set_g_fwLogBuf
           (take 10 (drop 90 (log_area (ring s)))
              ++ take 20 (log_area (ring s)) ++ drop 30 (g_fwLogBuf s))
           (set_head_offset 120 s),
         [HeadOffsetStore 120; Memcpy 0 90 10; Memcpy 10 0 20])).
Proof.
  split.
  - intros fuel c req s Hfuel Hptr Hrb Hm.
    destruct fuel as [|fuel]; [lia|].
    assert (Hrd : rd_ptr_of c (metadata (ring s)) = 10)
      by (unfold rd_ptr_of; rewrite Hm, Hrb; reflexivity).
    assert (Hwr : wr_ptr_wrap_of c (metadata (ring s)) = 50)
      by (unfold wr_ptr_wrap_of; rewrite Hm, Hrb; reflexivity).
    assert (Hw : wr_ptr_of (metadata (ring s)) = 50)
      by (rewrite Hm; reflexivity).
    rewrite drain_ahead by first [assumption | rewrite ?Hrd, ?Hwr, ?Hrb; lia].
    rewrite Hrd, Hwr, Hw. reflexivity.
  - intros fuel c req s Hfuel Hptr Hrb Hm Hlen.
    destruct fuel as [|[|fuel]]; [lia | lia |].
    assert (Hrd : rd_ptr_of c (metadata (ring s)) = 90)
      by (unfold rd_ptr_of; rewrite Hm, Hrb; reflexivity).
    assert (Hwr : wr_ptr_wrap_of c (metadata (ring s)) = 20)
      by (unfold wr_ptr_wrap_of; rewrite Hm, Hrb; reflexivity).
    assert (Hw : wr_ptr_of (metadata (ring s)) = 120)
      by (rewrite Hm; reflexivity).
    rewrite drain_behind by first [assumption | rewrite ?Hrd, ?Hwr, ?Hrb; lia].
    rewrite Hrd, Hwr, Hw, Hrb.
    unfold do_copy, memcpy. cbn [g_fwLogBuf_ptr load store].
    change (Z.to_nat (100 - 90)) with 10%nat.
    change (Z.to_nat (100 - 90 + 20)) with 30%nat.
    change (Z.to_nat 90) with 90%nat.
    change (Z.to_nat 20) with 20%nat.
    change (Z.to_nat 0) with 0%nat.
    change (Z.to_nat (0 + (100 - 90))) with 10%nat.
    cbn [set_g_fwLogBuf set_head_offset set_ring g_fwLogBuf ring log_area].
    rewrite !take_0, !drop_0. cbn [app].
    set (seg := take 10 (drop 90 (log_area (ring s)))).
    assert (Hseg : length seg = 10%nat)
      by (unfold seg; rewrite length_take, length_drop; lia).
    rewrite (take_app_length' seg) by (symmetry; exact Hseg).
    rewrite drop_app_ge by lia.
    rewrite Hseg, drop_drop. reflexivity.
Qed.

(** C1. With [rb_size = 1000], [head_offset = 10], [tail_offset = 50] the
    drain performs exactly one copy, of the 40 bytes at offsets 10..50 of
    the log area to the start of the scratch buffer, returns 40 and sets
    [head_offset] to 50. With [rb_size = 100], [head_offset = 90],
    [tail_offset = 120] it copies the 10 bytes at offsets 90..100 and then
    the 20 bytes at offsets 0..20, in that order, returns 30 and sets
    [head_offset] to 120. In both cases the log area and [tail_offset]
    are as before, and the scratch buffer holds the copied bytes followed
    by its old contents. *)
Theorem drain_spec_vectors :
  (forall fuel c req s,
      (1 <= fuel)%nat ->
      u64 (buf req + rb_size c) <> 0 ->
      rb_size c = 1000 ->
      metadata (ring s) = Metadata 50 10 ->
      let r := aie2_get_trace_event_content fuel c req g_fwLogBuf_ptr s in
      result r = Some 40
      /\ events r = [HeadOffsetStore 50; Memcpy 0 10 40]
      /\ head_offset (metadata (ring (final r))) = 50
      /\ tail_offset (metadata (ring (final r))) = 50
      /\ log_area (ring (final r)) = log_area (ring s)
      /\ g_fwLogBuf (final r)
         = take 40 (drop 10 (log_area (ring s))) ++ drop 40 (g_fwLogBuf s))
  /\
  (forall fuel c req s,
      (2 <= fuel)%nat ->
      u64 (buf req + rb_size c) <> 0 ->
      rb_size c = 100 ->
      metadata (ring s) = Metadata 120 90 ->
      length (log_area (ring s)) = 100%nat ->
      let r := aie2_get_trace_event_content fuel c req g_fwLogBuf_ptr s in
      result r = Some 30
      /\ events r = [HeadOffsetStore 120; Memcpy 0 90 10; Memcpy 10 0 20]
      /\ head_offset (metadata (ring (final r))) = 120
      /\ tail_offset (metadata (ring (final r))) = 120
      /\ log_area (ring (final r)) = log_area (ring s)
      /\ g_fwLogBuf (final r)
         = take 10 (drop 90 (log_area (ring s)))
             ++ take 20 (log_area (ring s)) ++ drop 30 (g_fwLogBuf s)).
Proof.
  destruct drain_vector_runs as [V1 V2]. split.
  - intros fuel c req s Hfuel Hptr Hrb Hm r. subst r.
    rewrite (V1 fuel c req s Hfuel Hptr Hrb Hm).
    unfold result, events, final. cbn [fst snd].
    split; [reflexivity|]. split; [reflexivity|].
    split; [reflexivity|]. split; [|split; reflexivity].
    change (tail_offset (metadata (ring s)) = 50). rewrite Hm. reflexivity.
  - intros fuel c req s Hfuel Hptr Hrb Hm Hlen r. subst r.
    rewrite (V2 fuel c req s Hfuel Hptr Hrb Hm Hlen).
    unfold result, events, final. cbn [fst snd].
    split; [reflexivity|]. split; [reflexivity|].
    split; [reflexivity|]. split; [|split; reflexivity].
    change (tail_offset (metadata (ring s)) = 120). rewrite Hm. reflexivity.
Qed.

(** The two vectors, run on a machine whose log area holds the bytes
    0, 1, 2, ...: the scratch buffer receives the bytes 10..49, and the
    bytes 90..99 followed by 0..19. *)
Lemma drain_spec_vectors_witness :
  (let r := aie2_get_trace_event_content 2 (Examples.config_of 1064)
              Examples.session g_fwLogBuf_ptr
              (Examples.machine 1064 (Examples.ramp 1000) 10 50 1
                 (Some Examples.session)) in
   result r = Some 40
   /\ events r = [HeadOffsetStore 50; Memcpy 0 10 40]
   /\ head_offset (metadata (ring (final r))) = 50
   /\ g_fwLogBuf (final r) = drop 10 (Examples.ramp 50) ++ repeat x00 1024)
  /\
  (let r := aie2_get_trace_event_content 2 (Examples.config_of 164)
              Examples.session g_fwLogBuf_ptr
              (Examples.machine 164 (Examples.ramp 100) 90 120 1
                 (Some Examples.session)) in
   result r = Some 30
   /\ events r = [HeadOffsetStore 120; Memcpy 0 90 10; Memcpy 10 0 20]
   /\ head_offset (metadata (ring (final r))) = 120
   /\ g_fwLogBuf (final r)
      = drop 90 (Examples.ramp 100) ++ Examples.ramp 20 ++ repeat x00 134).
Proof.
  destruct drain_spec_vectors as [V1 V2]. split.
  - intros r.
    destruct (V1 2%nat (Examples.config_of 1064) Examples.session
                (Examples.machine 1064 (Examples.ramp 1000) 10 50 1
                   (Some Examples.session))
                ltac:(lia) ltac:(vm_compute; discriminate)
                eq_refl eq_refl) as (H1 & H2 & H3 & _ & _ & H6).
    split; [exact H1|]. split; [exact H2|]. split; [exact H3|].
    fold r in H6. rewrite H6. vm_compute. reflexivity.
  - intros r.
    destruct (V2 2%nat (Examples.config_of 164) Examples.session
                (Examples.machine 164 (Examples.ramp 100) 90 120 1
                   (Some Examples.session))
                ltac:(lia) ltac:(vm_compute; discriminate)
                eq_refl eq_refl eq_refl) as (H1 & H2 & H3 & _ & _ & H6).
    split; [exact H1|]. split; [exact H2|]. split; [exact H3|].
    fold r in H6. rewrite H6. vm_compute. reflexivity.
Defined.

(** ** The published head offset *)

(** Whatever the cursors, one pass either returns 0 without copying or
    performs one copy into the scratch buffer. *)
Lemma copy_body_cases c kern_buf wr l s :
  (exists l' t, copy_body c kern_buf wr l s = (Return 0 l', s, t) /\
                Forall copy_or_log t)
  \/ (exists l' n,
        copy_body c kern_buf wr l s =
          (Next l', do_copy kern_buf (offset l) (rd_ptr l) n s,
           [Memcpy (offset l) (rd_ptr l) n])).
Proof.
  unfold copy_body.
  destruct (wr >? rd_ptr l).
  - destruct (u32 (wr - rd_ptr l) >? rb_size c).
    + left. eexists _, _. split; [reflexivity|].
      repeat constructor.
    + right. eexists _, _. reflexivity.
  - destruct (wr <? rd_ptr l).
    + destruct (u32 (rb_size c - rd_ptr l) >? rb_size c).
      * left. eexists _, _. split; [reflexivity|].
        repeat constructor.
      * right. eexists _, _. reflexivity.
    + left. eexists _, _. split; [reflexivity|]. constructor.
Qed.

(** The copy loop writes the scratch buffer only: the DMA region keeps
    its contents, and the loop emits nothing but copies and log lines. *)
Lemma copy_loop_frame fuel c wr : forall l s,
  ring (final (copy_loop fuel c g_fwLogBuf_ptr wr l s)) = ring s /\
  Forall copy_or_log (events (copy_loop fuel c g_fwLogBuf_ptr wr l s)).
Proof.
  induction fuel as [|fuel IH]; intros l s.
  - split; [reflexivity | constructor].
  - cbn [copy_loop]. unfold bind.
    destruct (copy_body_cases c g_fwLogBuf_ptr wr l s)
      as [(l' & t & -> & Ht) | (l' & n & ->)].
    + cbn. rewrite app_nil_r. split; [reflexivity | exact Ht].
    + destruct (rd_ptr l' <? wr).
      * specialize (IH l' (do_copy g_fwLogBuf_ptr (offset l) (rd_ptr l) n s)).
        destruct (copy_loop fuel c g_fwLogBuf_ptr wr l' _) as [[r s2] t2].
        unfold final, events in *. cbn in *.
        destruct IH as [IH1 IH2]. split; [exact IH1|].
        constructor; [exact I | exact IH2].
      * cbn. split; [reflexivity | repeat constructor].
Qed.

(** What the drain stores. For a nonzero log-area size, every drain sets
    [head_offset] to the low 32 bits of the [tail_offset] it read at
    entry, which is the counter itself while that is below 2^32, and the
    store is the first thing the drain does: every copy comes after
    it. *)
Theorem head_offset_published fuel c req s :
  rb_size c <> 0 ->
  u64 (buf req + rb_size c) <> 0 ->
  let tail := tail_offset (metadata (ring s)) in
  let r := aie2_get_trace_event_content fuel c req g_fwLogBuf_ptr s in
  head_offset (metadata (ring (final r))) = tail mod 2 ^ 32
  /\ (0 <= tail < 2 ^ 32 -> head_offset (metadata (ring (final r))) = tail)
  /\ exists rest,
       events r = HeadOffsetStore (tail mod 2 ^ 32) :: rest
       /\ Forall copy_or_log rest.
Proof.
  intros Hrb Hptr tail r.
  assert (Hhead : head_offset (metadata (ring (final r))) = tail mod 2 ^ 32
                  /\ exists rest,
                       events r = HeadOffsetStore (tail mod 2 ^ 32) :: rest
                       /\ Forall copy_or_log rest).
  { subst r. rewrite drain_unfold by assumption.
    pose proof (copy_loop_frame fuel c
                  (wr_ptr_wrap_of c (metadata (ring s)))
                  (Locals (rd_ptr_of c (metadata (ring s))) 0 0 0)
                  (set_head_offset (wr_ptr_of (metadata (ring s))) s))
      as [Hring Hev].
    destruct (copy_loop fuel c g_fwLogBuf_ptr _ _ _) as [[r0 s2] t].
    unfold final, events in *. cbn in *.
    split.
    - rewrite Hring. reflexivity.
    - exists t. split; [reflexivity | exact Hev]. }
  destruct Hhead as [Hhead Hev].
  split; [exact Hhead|]. split; [|exact Hev].
  intros Hsmall. rewrite Hhead. apply Z.mod_small. exact Hsmall.
Qed.

Lemma head_offset_published_witness :
  let s := Examples.machine 164 (Examples.ramp 100) 90 120 1 (Some Examples.session) in
  let r := aie2_get_trace_event_content 2 (Examples.config_of 164)
             Examples.session g_fwLogBuf_ptr s in
  head_offset (metadata (ring (final r))) = 120
  /\ exists rest,
       events r = HeadOffsetStore 120 :: rest /\ Forall copy_or_log rest.
Proof.
  intros s r.
  pose proof (head_offset_published 2 (Examples.config_of 164)
                Examples.session s
                ltac:(vm_compute; discriminate)
                ltac:(vm_compute; discriminate)) as (_ & Hsmall & Hev).
  split; [apply Hsmall; vm_compute; split; [discriminate | reflexivity] | exact Hev].
Defined.

(** C2, where the code departs from it. While the counter is below 2^32
    the drain publishes it in full: from [head_offset = 2^32 - 50] and
    [tail_offset = 2^32 - 10] it returns the 40 produced bytes and stores
    [2^32 - 10]. After the firmware produced 40 more bytes
    ([tail_offset = 2^32 + 30]) the next drain narrows the counter to 32
    bits before it reduces it modulo [rb_size] (the read cursor is
    reduced in 64 bits first): it returns 744 bytes for the 40 produced
    and stores 30, not the counter. *)
Theorem head_offset_truncation_defect :
  let c := Examples.config_of 1064 in
  let s0 := Examples.machine 1064 (Examples.ramp 1000)
              (2 ^ 32 - 50) (2 ^ 32 - 10) 1 (Some Examples.session) in
  let r1 := aie2_get_trace_event_content 2 c Examples.session
              g_fwLogBuf_ptr s0 in
  let produced := set_ring (Ring (log_area (ring (final r1)))
                                 (Metadata (2 ^ 32 + 30)
                                    (head_offset (metadata (ring (final r1))))))
                           (final r1) in
  let r2 := aie2_get_trace_event_content 2 c Examples.session
              g_fwLogBuf_ptr produced in
  rb_size c = 1000
  /\ result r1 = Some 40
  /\ head_offset (metadata (ring (final r1))) = 2 ^ 32 - 10
  /\ tail_offset (metadata (ring produced))
     = head_offset (metadata (ring produced)) + 40
  /\ result r2 = Some 744
  /\ events r2 = [HeadOffsetStore 30; Memcpy 0 286 714; Memcpy 714 0 30]
  /\ head_offset (metadata (ring (final r2))) = 30
  /\ head_offset (metadata (ring (final r2)))
     <> tail_offset (metadata (ring produced)).
Proof.
  vm_compute. repeat split; try reflexivity. discriminate.
Qed.

(** ** Termination of the copy loop *)



(** ** Bounds of the drain *)

(** With two passes of fuel the drain always returns: a count below the
    log-area size (0 when that size is 0), having emitted only the head
    store, copies shorter than the log area, and harmless log lines. *)
Lemma drain_total fuel c req kern_buf s :
  (2 <= fuel)%nat ->
  exists v s' t,
    aie2_get_trace_event_content fuel c req kern_buf s = (Some v, s', t)
    /\ 0 <= v <= rb_size c
    /\ (v <> 0 -> v < rb_size c)
    /\ Forall (drain_event_ok c) t.
Proof.
  intros Hfuel. destruct fuel as [|[|fuel]]; [lia | lia |].
  pose proof (rb_size_bound c) as Hb.
  destruct (Z.eq_dec (rb_size c) 0) as [Hrb | Hrb].
  { exists 0, s, []. unfold aie2_get_trace_event_content.
    rewrite Hrb. cbn. repeat split; try lia. constructor. }
  destruct (Z.eq_dec (u64 (buf req + rb_size c)) 0) as [Hptr | Hptr].
  { exists 0, s, [Log ERR "FW trace buffer metadata is null!" []].
    unfold aie2_get_trace_event_content.
    destruct (Z.eqb_spec (rb_size c) 0) as [E|_]; [contradiction|].
    rewrite Hptr. cbn. repeat split; try lia.
    constructor; [discriminate | constructor]. }
  pose proof (rd_ptr_bound c (metadata (ring s)) Hrb) as Hrd.
  pose proof (wr_ptr_wrap_bound c (metadata (ring s)) Hrb) as Hwr.
  destruct (Z.lt_trichotomy (rd_ptr_of c (metadata (ring s)))
              (wr_ptr_wrap_of c (metadata (ring s)))) as [Hlt | [Heq | Hgt]].
  - eexists _, _, _. split; [apply drain_ahead; assumption|].
    repeat split; try lia. repeat constructor; lia.
  - eexists _, _, _. split; [apply drain_level; assumption|].
    repeat split; try lia. repeat constructor.
  - destruct (Z.eq_dec (wr_ptr_wrap_of c (metadata (ring s))) 0) as [Hw0 | Hw0].
    + eexists _, _, _. split; [apply drain_behind_end; first [assumption|lia]|].
      repeat split; try lia. repeat constructor; lia.
    + eexists _, _, _. split; [apply drain_behind; first [assumption|lia]|].
      repeat split; try lia. repeat constructor; lia.
Qed.

(** The print loop emits record lines only. *)
Lemma print_records_logs fuel c req : forall str end_ s,
  Forall (fun e => is_log e = true)
         (events (print_records fuel c req str end_ s)).
Proof.
  induction fuel as [|fuel IH]; intros str end_ s; [constructor|].
  cbn [print_records]. destruct (str <? end_); [|constructor].
  unfold bind, get, emit. cbn.
  specialize (IH (str + MAX_ONE_TIME_LOG_INFO_LEN c) end_ s).
  destruct (print_records fuel c req _ end_ s) as [[r s2] t].
  unfold events in *. cbn in *. constructor; [reflexivity | exact IH].
Qed.

(** C10. Whatever the cursors, every segment the drain copies is shorter
    than [rb_size], the corruption report is never emitted, and the count
    returned is at most [rb_size] (below it when nonzero); with the
    metadata block inside the region, [rb_size] is
    [TRACE_EVENT_BUFFER_SIZE - TRACE_EVENT_BUFFER_METADATA_SIZE] and the
    decoder's NUL store [g_fwLogBuf[log_size] = 0] always has an index
    below [TRACE_EVENT_BUFFER_SIZE]. *)
Theorem drain_segments_bounded fuel c s :
  (2 <= fuel)%nat ->
  0 <= TRACE_EVENT_BUFFER_METADATA_SIZE c <= TRACE_EVENT_BUFFER_SIZE c ->
  (forall req kern_buf,
      let r := aie2_get_trace_event_content fuel c req kern_buf s in
      Forall (drain_event_ok c) (events r)
      /\ exists v,
           result r = Some v
           /\ 0 <= v <= rb_size c
           /\ rb_size c
                <= TRACE_EVENT_BUFFER_SIZE c - TRACE_EVENT_BUFFER_METADATA_SIZE c
           /\ (v <> 0 -> v < TRACE_EVENT_BUFFER_SIZE c))
  /\ Forall (nul_store_ok (TRACE_EVENT_BUFFER_SIZE c))
            (events (aie2_print_trace_event_log fuel c s)).
Proof.
  intros Hfuel HBM.
  assert (Hle : rb_size c
                <= TRACE_EVENT_BUFFER_SIZE c - TRACE_EVENT_BUFFER_METADATA_SIZE c).
  { unfold rb_size, u32. apply Z.mod_le; lia. }
  split.
  - intros req kern_buf r. subst r.
    destruct (drain_total fuel c req kern_buf s Hfuel)
      as (v & s' & t & -> & Hv & Hlt & Ht).
    split; [exact Ht|]. exists v. repeat split; try lia.
  - unfold aie2_print_trace_event_log, bind, get. cbn.
    destruct (event_trace_req (ndev s)) as [req|]; [|repeat constructor].
    destruct (drain_total fuel c req g_fwLogBuf_ptr s Hfuel)
      as (v & s' & t & -> & Hv & Hlt & Ht).
    assert (Hnul : Forall (nul_store_ok (TRACE_EVENT_BUFFER_SIZE c)) t).
    { eapply Forall_impl; [exact Ht|].
      intros [] He; cbn in *; solve [exact I | contradiction]. }
    unfold emit, modify. cbn. unfold truthy.
    destruct (Z.eqb_spec v 0) as [Hv0 | Hv0]; cbn.
    + apply Forall_app. split; [exact Hnul|].
      repeat constructor.
    + pose proof (print_records_logs fuel c req 0 v
                    (set_g_fwLogBuf (<[Z.to_nat v := x00]> (g_fwLogBuf s')) s'))
        as Hrec.
      destruct (print_records fuel c req 0 v _) as [[r s2] t2].
      unfold events in *. cbn in *.
      apply Forall_app. split; [exact Hnul|].
      constructor; [exact I|]. constructor; [cbn; lia|].
      eapply Forall_impl; [exact Hrec|].
      intros [] He; cbn in *; solve [exact I | discriminate].
Qed.

Lemma drain_segments_bounded_witness :
  let c := Examples.config_of 164 in
  let s := Examples.machine 164 (Examples.ramp 100) 90 120 1 (Some Examples.session) in
  Forall (drain_event_ok c)
    (events (aie2_get_trace_event_content 2 c Examples.session
               g_fwLogBuf_ptr s))
  /\ Forall (nul_store_ok 164) (events (aie2_print_trace_event_log 2 c s)).
Proof.
  intros c s.
  pose proof (drain_segments_bounded 2 c s ltac:(lia)
                ltac:(vm_compute; split; discriminate)) as [Hdrain Hnul].
  split; [apply (Hdrain Examples.session g_fwLogBuf_ptr) | exact Hnul].
Defined.

(** ** The decoder *)

Lemma byte_at_bound b i : 0 <= byte_at b i < 256.
Proof.
  unfold byte_at. destruct (b !! Z.to_nat i) as [x|]; [|lia].
  pose proof (Byte.to_N_bounded x). lia.
Qed.

Lemma load_le_bound n : forall b off,
  0 <= load_le n b off < 256 ^ Z.of_nat n.
Proof.
  induction n as [|n IH]; intros b off.
  - cbn. lia.
  - cbn [load_le]. rewrite Nat2Z.inj_succ, Z.pow_succ_r by lia.
    pose proof (byte_at_bound b off). specialize (IH b (off + 1)). lia.
Qed.

(** Whatever the bytes, a loaded record has its fields in their C
    ranges. *)
Lemma load_log_data_in_range b str : record_in_range (load_log_data b str).
Proof.
  unfold record_in_range, load_log_data. cbn [counter payload_hi type payload_low].
  pose proof (load_le_bound 8 b str).
  pose proof (load_le_bound 2 b (str + 8)).
  pose proof (load_le_bound 2 b (str + 10)).
  pose proof (load_le_bound 4 b (str + 12)).
  change (256 ^ Z.of_nat 8) with (2 ^ 64) in *.
  change (256 ^ Z.of_nat 2) with (2 ^ 16) in *.
  change (256 ^ Z.of_nat 4) with (2 ^ 32) in *.
  lia.
Qed.

Lemma lor_bound k a b :
  0 <= k -> 0 <= a < 2 ^ k -> 0 <= b < 2 ^ k -> 0 <= Z.lor a b < 2 ^ k.
Proof.
  intros Hk Ha Hb.
  assert (Hnn : 0 <= Z.lor a b) by (apply Z.lor_nonneg; lia).
  split; [exact Hnn|].
  apply Z.bounded_iff_bits_nonneg; [lia | exact Hnn |].
  intros l Hl. rewrite Z.lor_spec.
  rewrite (proj1 (Z.bounded_iff_bits_nonneg k a Hk ltac:(lia)) ltac:(lia) l Hl).
  rewrite (proj1 (Z.bounded_iff_bits_nonneg k b Hk ltac:(lia)) ltac:(lia) l Hl).
  reflexivity.
Qed.

(** The 64-bit payload expression never truncates. *)
Lemma payload_exact r :
  record_in_range r ->
  u64 (Z.lor (u64 (Z.shiftl (u64 (payload_hi r)) 32)) (payload_low r))
  = spec_logical_payload r.
Proof.
  intros (_ & Hhi & _ & Hlo). unfold spec_logical_payload.
  rewrite (u64_small (payload_hi r)) by lia.
  assert (Hsh : 0 <= Z.shiftl (payload_hi r) 32 < 2 ^ 64)
    by (rewrite Z.shiftl_mul_pow2 by lia; lia).
  rewrite (u64_small (Z.shiftl (payload_hi r) 32)) by exact Hsh.
  apply u64_small. apply lor_bound; lia.
Qed.

Lemma fw_log_line_spec a r :
  record_in_range r ->
  fw_log_line a r =
    Log INFO "[%llu][FW] type: 0x%04x payload:0x%016llx"
        [u64 (u64 (counter r - resp_timestamp a) / 24 + sys_start_time a);
         type r; spec_logical_payload r].
Proof.
  intros Hr. unfold fw_log_line. rewrite payload_exact by exact Hr.
  reflexivity.
Qed.

(** The print loop emits one line per stride, in order. *)
Lemma print_records_lines fuel c req end_ s : forall str,
  exists n,
    events (print_records fuel c req str end_ s) =
      map (fun k =>
             fw_log_line req
               (load_log_data (g_fwLogBuf s)
                  (str + Z.of_nat k * MAX_ONE_TIME_LOG_INFO_LEN c)))
          (seq 0 n)
    /\ forall k, (k < n)%nat ->
         str + Z.of_nat k * MAX_ONE_TIME_LOG_INFO_LEN c < end_.
Proof.
  induction fuel as [|fuel IH]; intros str.
  - exists 0%nat. split; [reflexivity | lia].
  - cbn [print_records].
    destruct (Z.ltb_spec str end_) as [Hlt | Hge].
    + destruct (IH (str + MAX_ONE_TIME_LOG_INFO_LEN c)) as (n & Hev & Hin).
      exists (S n). unfold bind, get, emit. cbn.
      destruct (print_records fuel c req _ end_ s) as [[r s2] t].
      unfold events in *. cbn in *. subst t. split.
      * rewrite Z.add_0_r. f_equal.
        rewrite <- seq_shift, map_map. apply map_ext. intros k.
        do 2 f_equal. lia.
      * intros k Hk. destruct k as [|k]; [lia|].
        specialize (Hin k ltac:(lia)). lia.
    + exists 0%nat. split; [reflexivity | lia].
Qed.

(** With a positive stride the print loop ends. *)
Lemma print_records_returns c req end_ s :
  0 < MAX_ONE_TIME_LOG_INFO_LEN c ->
  forall fuel str,
    (Z.to_nat (end_ - str) < fuel)%nat ->
    result (print_records fuel c req str end_ s) = Some tt.
Proof.
  intros Hstride. induction fuel as [|fuel IH]; intros str Hfuel; [lia|].
  cbn [print_records].
  destruct (Z.ltb_spec str end_) as [Hlt | Hge]; [|reflexivity].
  unfold bind, get, emit. cbn.
  specialize (IH (str + MAX_ONE_TIME_LOG_INFO_LEN c) ltac:(lia)).
  destruct (print_records fuel c req _ end_ s) as [[r s2] t].
  unfold result in *. cbn in *. exact IH.
Qed.

Lemma strides_none n L : 0 < L -> n <= 0 -> strides n L = 0%nat.
Proof.
  intros HL Hn. unfold strides.
  assert ((n + L - 1) / L < 1) by (apply Z.div_lt_upper_bound; lia).
  lia.
Qed.

Lemma strides_next n L : 0 < L -> 0 < n -> strides n L = S (strides (n - L) L).
Proof.
  intros HL Hn. unfold strides.
  replace (n + L - 1) with (n - 1 + 1 * L) by lia.
  rewrite Z.div_add by lia.
  replace (n - L + L - 1) with (n - 1) by lia.
  assert (0 <= (n - 1) / L) by (apply Z.div_pos; lia).
  lia.
Qed.

(** The print loop as one run: with a positive stride and fuel for every
    byte it returns, leaves the machine alone and emits one line per
    stride that starts below [end_]. *)
Lemma print_records_run c req end_ s :
  0 < MAX_ONE_TIME_LOG_INFO_LEN c ->
  forall fuel str,
    (Z.to_nat (end_ - str) < fuel)%nat ->
    print_records fuel c req str end_ s =
      (Some tt, s,
       map (fun k =>
              fw_log_line req
                (load_log_data (g_fwLogBuf s)
                   (str + Z.of_nat k * MAX_ONE_TIME_LOG_INFO_LEN c)))
           (seq 0 (strides (end_ - str) (MAX_ONE_TIME_LOG_INFO_LEN c)))).
Proof.
  intros HL. induction fuel as [|fuel IH]; intros str Hfuel; [lia|].
  cbn [print_records].
  destruct (Z.ltb_spec str end_) as [Hlt | Hge].
  - unfold bind, get, emit. cbn.
    rewrite IH by lia.
    rewrite (strides_next (end_ - str)) by lia.
    cbn [seq map]. rewrite Z.mul_0_l, Z.add_0_r.
    replace (end_ - (str + MAX_ONE_TIME_LOG_INFO_LEN c))
      with (end_ - str - MAX_ONE_TIME_LOG_INFO_LEN c) by lia.
    do 2 f_equal.
    rewrite <- seq_shift, map_map. apply map_ext. intros k.
    do 2 f_equal. lia.
  - rewrite strides_none by lia. reflexivity.
Qed.

(** C6, as the code has it. With a positive stride the print loop ends
    and emits, for the record at every stride below the byte count and
    in order, one line that carries the time
    [(counter - resp_timestamp) / 24 + sys_start_time] computed in
    unsigned 64-bit arithmetic with integer division, and the payload
    [(payload_hi << 32) | payload_low]. The time is the integer value of
    the formula whenever the counter is not behind the anchor and the sum
    fits 64 bits, and wraps modulo 2^64 otherwise. With
    [resp_timestamp = 1000], [sys_start_time = 5000] and [counter = 1048]
    the time is 5002. *)
Theorem timestamp_correlation fuel c req str end_ s :
  0 < MAX_ONE_TIME_LOG_INFO_LEN c ->
  (Z.to_nat (end_ - str) < fuel)%nat ->
  print_records fuel c req str end_ s =
    (Some tt, s,
     map (fun k =>
            let r := load_log_data (g_fwLogBuf s)
                       (str + Z.of_nat k * MAX_ONE_TIME_LOG_INFO_LEN c) in
            Log INFO "[%llu][FW] type: 0x%04x payload:0x%016llx"
                [u64 (u64 (counter r - resp_timestamp req) / 24
                      + sys_start_time req);
                 type r; spec_logical_payload r])
         (seq 0 (strides (end_ - str) (MAX_ONE_TIME_LOG_INFO_LEN c))))
  /\ (forall r,
        0 <= resp_timestamp req <= counter r ->
        counter r < 2 ^ 64 ->
        0 <= sys_start_time req ->
        spec_host_relative_time req r < 2 ^ 64 ->
        u64 (u64 (counter r - resp_timestamp req) / 24 + sys_start_time req)
        = spec_host_relative_time req r)
  /\ (forall r,
        resp_timestamp req = 1000 -> sys_start_time req = 5000 ->
        counter r = 1048 ->
        u64 (u64 (counter r - resp_timestamp req) / 24 + sys_start_time req)
        = 5002).
Proof.
  intros HL Hfuel. split; [|split].
  - rewrite (print_records_run c req end_ s HL fuel str Hfuel).
    f_equal. apply map_ext. intros k. cbv zeta.
    apply fw_log_line_spec, load_log_data_in_range.
  - intros r Hresp Hcnt Hsys Hfit. unfold spec_host_relative_time in *.
    assert (Hdiv : 0 <= (counter r - resp_timestamp req) / 24)
      by (apply Z.div_pos; lia).
    rewrite (u64_small (counter r - resp_timestamp req)) by lia.
    apply u64_small. lia.
  - intros r Hresp Hsys Hcnt. rewrite Hresp, Hsys, Hcnt. reflexivity.
Qed.

(** The print loop on a scratch buffer that holds one record with
    counter 1048, under the anchor (1000, 5000): one line, at 5002. *)
Lemma timestamp_correlation_witness :
  let c := Examples.config_of 164 in
  let s := State (Ndev (Some Examples.npu) 0x1000 2 1 (Some Examples.session))
                 [] [] [] (Ring [] (Metadata 16 16))
                 (Examples.record_bytes ++ repeat x00 148) true in
  print_records 17 c Examples.session 0 16 s =
    (Some tt, s,
     [Log INFO "[%llu][FW] type: 0x%04x payload:0x%016llx"
          [5002; 0xa5; 0x010203040506]])
  /\ spec_host_relative_time Examples.session
       (load_log_data Examples.record_bytes 0) = 5002.
Proof.
  intros c s.
  destruct (timestamp_correlation 17 c Examples.session 0 16 s
              ltac:(reflexivity) ltac:(vm_compute; lia))
    as (Hrun & Hexact & _).
  split.
  - rewrite Hrun. vm_compute. reflexivity.
  - rewrite <- (Hexact (load_log_data Examples.record_bytes 0));
      vm_compute; first [reflexivity | split; discriminate | discriminate].
Defined.

(** C6, as stated, fails for a record whose counter is behind the
    anchor: with [resp_timestamp = 1000], [sys_start_time = 5000] and a
    counter of 976 the formula over the integers gives 4999, and the code,
    whose subtraction wraps in 64 bits, prints 768614336404569649. *)
Lemma timestamp_wraps_behind_anchor :
  let c := Examples.config_of 164 in
  let s := State (Ndev (Some Examples.npu) 0x1000 2 1 (Some Examples.session))
                 [] [] [] (Ring [] (Metadata 16 16))
                 (stale_record_bytes ++ repeat x00 148) true in
  let r := load_log_data (g_fwLogBuf s) 0 in
  counter r = 976
  /\ spec_host_relative_time Examples.session r = 4999
  /\ events (print_records 17 c Examples.session 0 16 s) =
       [Log INFO "[%llu][FW] type: 0x%04x payload:0x%016llx"
            [768614336404569649; 0xa5; 0x010203040506]]
  /\ 768614336404569649 <> spec_host_relative_time Examples.session r.
Proof.
  vm_compute. repeat split; try reflexivity. discriminate.
Qed.

(** The whole decoder on a scratch buffer that receives one record with
    counter 1048 under the anchor (1000, 5000). *)
Example decoder_run :
  events (aie2_print_trace_event_log 17 (Examples.config_of 164)
            (Examples.machine 164 (Examples.record_bytes ++ repeat x00 84)
               0 16 1 (Some Examples.session)))
  = [HeadOffsetStore 16; Memcpy 0 0 16;
     Log DBG "FW log size in bytes %u" [16]; NulStore 16;
     Log INFO "[%llu][FW] type: 0x%04x payload:0x%016llx"
         [5002; 0xa5; 0x010203040506]].
Proof. vm_compute. reflexivity. Qed.

(** ** The capability gate *)

Lemma supported_yes s :
  trace_supported (ndev s) ->
  exists p,
    pdev (ndev s) = Some p /\
    aie2_is_event_trace_supported_on_dev s =
      (1, s, [Log DBG "Dev id: 0x%x, Dev rev: 0x%x\n" [device p; revision p]]).
Proof.
  intros (p & Hp & Hdev & Hrev). exists p. split; [exact Hp|].
  unfold aie2_is_event_trace_supported_on_dev, bind, get, emit, ret. cbn.
  rewrite Hp. cbn. rewrite Hdev.
  destruct (Z.geb_spec (revision p) 16); [reflexivity | lia].
Qed.

Lemma supported_no s :
  (forall p, pdev (ndev s) = Some p -> device p <> 0x17f0 \/ revision p < 0x10) ->
  exists t,
    aie2_is_event_trace_supported_on_dev s = (0, s, t) /\
    Forall (fun e => is_log e = true) t.
Proof.
  intros Hno.
  unfold aie2_is_event_trace_supported_on_dev, bind, get, emit, ret. cbn.
  destruct (pdev (ndev s)) as [p|] eqn:Hp; cbn.
  - exists [Log DBG "Dev id: 0x%x, Dev rev: 0x%x\n" [device p; revision p]].
    split; [|repeat constructor].
    destruct (Hno p eq_refl) as [Hdev | Hrev].
    + destruct (Z.eqb_spec (device p) 6128); [contradiction | reflexivity].
    + destruct (Z.geb_spec (revision p) 16); [lia|].
      rewrite andb_false_r. reflexivity.
  - eexists. split; [reflexivity | repeat constructor].
Qed.

Lemma effects_logs t : Forall (fun e => is_log e = true) t -> effects t = [].
Proof.
  induction 1 as [|e t He _ IH]; [reflexivity|].
  unfold effects in *. cbn. rewrite He. cbn. exact IH.
Qed.

(** C5. On a device the capability gate rejects (no PCI device, a device
    id other than 0x17f0, or a revision below 0x10) the gate returns 0 and
    [aie2_assign_event_trace_state] changes nothing, whatever the
    requested and the prior state: the machine, with the enablement flag,
    the session pointer and the live resources, is the same afterwards,
    and nothing but log lines is emitted, so no firmware message is
    sent. *)
Theorem capability_gate_blocks c e st s :
  (forall p, pdev (ndev s) = Some p ->
             device p <> 0x17f0 \/ revision p < 0x10) ->
  result (aie2_is_event_trace_supported_on_dev s) = 0
  /\ final (aie2_assign_event_trace_state c e st s) = s
  /\ effects (events (aie2_assign_event_trace_state c e st s)) = [].
Proof.
  intros Hno. destruct (supported_no s Hno) as (t & Hrun & Hlog).
  split; [rewrite Hrun; reflexivity|].
  unfold aie2_assign_event_trace_state, bind. rewrite Hrun. cbn.
  split; [reflexivity|].
  apply effects_logs. apply Forall_app. split; [exact Hlog|].
  repeat constructor.
Qed.

Lemma capability_gate_blocks_witness :
  let s := State (Ndev (Some (PciDev 0x1502 0x10)) 0x1000 2 0 None) [] [] []
                 (Ring [] (Metadata 0 0)) [] true in
  final (aie2_assign_event_trace_state (Examples.config_of 164)
           Examples.env_ok 1 s) = s
  /\ effects (events (aie2_assign_event_trace_state (Examples.config_of 164)
                        Examples.env_ok 1 s)) = [].
Proof.
  intros s.
  apply (capability_gate_blocks (Examples.config_of 164) Examples.env_ok 1 s).
  intros p Hp. injection Hp as <-. left. cbn. discriminate.
Defined.

(** ** Session teardown *)

(** C7. Teardown is idempotent: without an active session
    [aie2_event_trace_free] changes nothing and emits nothing; after any
    call the session pointer is null; hence a second call in succession
    leaves the machine as the first one left it. *)
Theorem event_trace_free_idempotent s :
  (event_trace_req (ndev s) = None -> aie2_event_trace_free s = (tt, s, []))
  /\ event_trace_req (ndev (final (aie2_event_trace_free s))) = None
  /\ aie2_event_trace_free (final (aie2_event_trace_free s))
     = (tt, final (aie2_event_trace_free s), []).
Proof.
  assert (Hnone : forall s', event_trace_req (ndev s') = None ->
                             aie2_event_trace_free s' = (tt, s', [])).
  { intros s' H. unfold aie2_event_trace_free, bind, get. cbn.
    rewrite H. reflexivity. }
  assert (Hnull : event_trace_req (ndev (final (aie2_event_trace_free s)))
                  = None).
  { unfold aie2_event_trace_free, bind, get. cbn.
    destruct (event_trace_req (ndev s)) as [req|] eqn:Hreq.
    - reflexivity.
    - cbn. exact Hreq. }
  split; [apply Hnone|]. split; [exact Hnull|].
  apply Hnone. exact Hnull.
Qed.

Lemma event_trace_free_idempotent_witness :
  let s := Examples.machine 164 [] 0 0 0 None in
  aie2_event_trace_free s = (tt, s, []).
Proof.
  intros s. apply (proj1 (event_trace_free_idempotent s)). reflexivity.
Defined.

(** A teardown of a live session, and a second one after it. *)
Example teardown_twice :
  let s := State (Ndev (Some Examples.npu) 0x1000 2 1 (Some Examples.session))
                 [0x7000] [0x8000] [5] (Ring [] (Metadata 0 0)) [] true in
  let s1 := Examples.machine 0 [] 0 0 1 None in
  aie2_event_trace_free s
    = (tt, s1, [DmaFree 1064 0x8000 0x9000; FreeIrq 5; Kfree 0x7000])
  /\ aie2_event_trace_free s1 = (tt, s1, []).
Proof. split; reflexivity. Qed.

(** ** The enable transition *)

Section Enable.
Variable c : config.
Variable e : env.
Variable s : state.
Variables p cpu dma : Z.

Hypothesis kzalloc_ok : kzalloc_res e = Some p.
Hypothesis dma_alloc_ok : dma_alloc_res e = Some (cpu, dma).
Hypothesis request_irq_ok : request_irq_res e = 0.

Let allocated := with_session c e p cpu dma.

Lemma alloc_succeeds s0 :
  aie2_event_trace_alloc c e s0 =
    (0, allocated s0,
     [Kzalloc (Some p);
      DmaAlloc (TRACE_EVENT_BUFFER_SIZE c) (Some (cpu, dma));
      RequestIrq (pci_irq_vector_res e) 0;
      Log DBG "Start event trace buf addr: 0x%llx size 0x%x"
          [dma; u32 (TRACE_EVENT_BUFFER_SIZE c)]]).
Proof.
  unfold aie2_event_trace_alloc.
  rewrite kzalloc_ok, dma_alloc_ok, request_irq_ok. reflexivity.
Qed.

(** The start message fails after a successful allocation: the error is
    returned and the session stays allocated. *)
Lemma start_send_fails s0 :
  start_event_trace_res e <> 0 ->
  exists t,
    aie2_start_event_trace_send c e s0 =
      (start_event_trace_res e, allocated s0, t)
    /\ effects t =
         [Kzalloc (Some p);
          DmaAlloc (TRACE_EVENT_BUFFER_SIZE c) (Some (cpu, dma));
          RequestIrq (pci_irq_vector_res e) 0;
          FwStartTrace dma (u32 (TRACE_EVENT_BUFFER_SIZE c))
                       (start_event_trace_res e)].
Proof.
  intros Hfail.
  unfold aie2_start_event_trace_send, bind. rewrite alloc_succeeds.
  unfold aie2_start_event_trace, warn_unless_locked, truthy, bind, get, emit,
    ret.
  cbn. destruct (Z.eqb_spec (start_event_trace_res e) 0); [contradiction|].
  destruct (dev_locked s0); cbn; eexists; split; reflexivity.
Qed.

(** Tearing the fresh session down restores the live resources. *)
Lemma free_allocated s0 :
  aie2_event_trace_free (allocated s0) =
    (tt, set_ndev (set_event_trace_req None (ndev s0)) s0,
     [DmaFree (u32 (TRACE_EVENT_BUFFER_SIZE c)) cpu dma;
      FreeIrq (pci_irq_vector_res e); Kfree p]).
Proof.
  unfold aie2_event_trace_free, dma_free_noncoherent, free_irq, kfree,
    bind, get, emit, modify, modify_ndev, ret.
  cbn. rewrite !Z.eqb_refl. reflexivity.
Qed.

(** The whole enable transition when the start message fails. *)
Lemma enable_start_fails st :
  trace_supported (ndev s) ->
  event_trace_enabled (ndev s) <> st ->
  st <> 0 ->
  start_event_trace_res e <> 0 ->
  exists t,
    aie2_assign_event_trace_state c e st s =
      (tt,
       set_ndev
         (set_event_trace_req None (set_event_trace_enabled st (ndev s))) s,
       t)
    /\ effects t =
         [Kzalloc (Some p);
          DmaAlloc (TRACE_EVENT_BUFFER_SIZE c) (Some (cpu, dma));
          RequestIrq (pci_irq_vector_res e) 0;
          FwStartTrace dma (u32 (TRACE_EVENT_BUFFER_SIZE c))
                       (start_event_trace_res e);
          DmaFree (u32 (TRACE_EVENT_BUFFER_SIZE c)) cpu dma;
          FreeIrq (pci_irq_vector_res e);
          Kfree p;
          clear_msix_write c (ndev s)]
    /\ In (Log ERR "Send start event trace failed, ret %d"
               [start_event_trace_res e]) t.
Proof.
  intros Hsup Hflag Hst Hfail.
  destruct (supported_yes s Hsup) as (pd & Hpd & Hgate).
  destruct (start_send_fails
              (set_ndev (set_event_trace_enabled st (ndev s)) s) Hfail)
    as (t2 & Hsend & Heff).
  eexists. split; [|split].
  - unfold aie2_assign_event_trace_state.
    unfold bind at 1. rewrite Hgate. cbn [truthy negb Z.eqb].
    unfold bind at 1, get at 1.
    destruct (Z.eqb_spec (event_trace_enabled (ndev s)) st); [contradiction|].
    unfold bind at 1, modify_ndev at 1, modify at 1.
    unfold truthy at 1. destruct (Z.eqb_spec st 0); [contradiction|].
    cbn [negb].
    unfold bind at 1. unfold bind at 1. rewrite Hsend.
    unfold truthy at 1.
    destruct (Z.eqb_spec (start_event_trace_res e) 0); [contradiction|].
    cbn [negb]. unfold bind at 1. unfold emit at 1.
    rewrite free_allocated.
    unfold clear_event_trace_msix, bind, get, emit. cbn.
    reflexivity.
  - unfold effects in *. cbn [List.filter is_log negb].
    rewrite !List.filter_app, Heff. reflexivity.
  - right. apply in_or_app. left. apply in_or_app. right. left. reflexivity.
Qed.
End Enable.

(** ** Frame and shape of a transition *)

Ltac run_driver :=
  unfold aie2_assign_event_trace_state, aie2_is_event_trace_supported_on_dev,
    aie2_start_event_trace_send, aie2_stop_event_trace_send,
    aie2_event_trace_alloc, aie2_event_trace_free, aie2_start_event_trace,
    aie2_stop_event_trace, aie2_set_trace_timestamp, clear_event_trace_msix,
    warn_unless_locked, dma_free_noncoherent, free_irq, kfree,
    modify_ndev, modify, bind, get, emit, ret;
  cbn.

Ltac split_cases :=
  repeat match goal with
         | |- context [match ?x with _ => _ end] =>
             lazymatch x with
             | context [match _ with _ => _ end] => fail
             | _ => destruct x eqn:?; cbn
             end
         end.

(** No call moves the mailbox base of the device. *)
Lemma assign_keeps_mbox_base c e st s :
  mbox_base (ndev (final (aie2_assign_event_trace_state c e st s)))
  = mbox_base (ndev s).
Proof.
  destruct s as [d km dm iq rg gb lk]. destruct d as [pd mb ds en rq].
  destruct e as [kz da iv ri sr ct kt sp].
  unfold final. run_driver. split_cases; reflexivity.
Qed.

Lemma ends_with_refl suffix : ends_with suffix suffix.
Proof. exists []. reflexivity. Qed.

Lemma ends_with_cons suffix a t : ends_with suffix t -> ends_with suffix (a :: t).
Proof. intros [before ->]. exists (a :: before). reflexivity. Qed.

(** A call on a supported device that asks for the current state is
    only logged. *)
Lemma same_state_noop c e st s :
  trace_supported (ndev s) ->
  event_trace_enabled (ndev s) = st ->
  exists p,
    pdev (ndev s) = Some p /\
    aie2_assign_event_trace_state c e st s =
      (tt, s,
       [Log DBG "Dev id: 0x%x, Dev rev: 0x%x\n" [device p; revision p];
        Log DBG "Event trace state is already %d" [st]]).
Proof.
  intros Hsup Hflag. destruct (supported_yes s Hsup) as (p & Hp & Hgate).
  exists p. split; [exact Hp|].
  unfold aie2_assign_event_trace_state, bind. rewrite Hgate.
  cbn [truthy negb Z.eqb]. unfold get.
  rewrite Hflag, Z.eqb_refl. reflexivity.
Qed.

(** Every transition ends with the register write that clears the
    interrupt and the closing log line. *)
Lemma transition_ends_with_clear c e st s :
  trace_supported (ndev s) ->
  event_trace_enabled (ndev s) <> st ->
  ends_with [clear_msix_write c (ndev s); Log DBG "Event trace state: %d" [st]]
            (events (aie2_assign_event_trace_state c e st s)).
Proof.
  intros (p & Hp & Hdev & Hrev) Hflag.
  destruct s as [d km dm iq rg gb lk]. destruct d as [pd mb ds en rq].
  destruct e as [kz da iv ri sr ct kt sp].
  cbn in Hp, Hflag. subst pd.
  unfold events, clear_msix_write. run_driver. rewrite Hdev.
  destruct (Z.geb_spec (revision p) 16); [|lia]. cbn.
  destruct (Z.eqb_spec en st); [contradiction|]. cbn.
  split_cases;
    repeat first [apply ends_with_refl | apply ends_with_cons].
Qed.


(** ** Failed-start recovery *)

(** C3, as the code has it. If the session allocation succeeds and the
    firmware start-trace message fails, the enable transition releases
    the session in full: the DMA buffer, the interrupt registration and
    the control structure it allocated are freed again, so the live
    resources are those from before the call, and [event_trace_req] is
    null. [aie2_start_event_trace_send] returns the nonzero error to the
    transition, which logs it; the transition itself returns nothing. *)
Theorem failed_start_recovery c e s p cpu dma st :
  trace_supported (ndev s) ->
  event_trace_enabled (ndev s) <> st ->
  st <> 0 ->
  kzalloc_res e = Some p ->
  dma_alloc_res e = Some (cpu, dma) ->
  request_irq_res e = 0 ->
  start_event_trace_res e <> 0 ->
  let r := aie2_assign_event_trace_state c e st s in
  event_trace_req (ndev (final r)) = None
  /\ kmem_live (final r) = kmem_live s
  /\ dma_live (final r) = dma_live s
  /\ irq_live (final r) = irq_live s
  /\ effects (events r) =
       [Kzalloc (Some p);
        DmaAlloc (TRACE_EVENT_BUFFER_SIZE c) (Some (cpu, dma));
        RequestIrq (pci_irq_vector_res e) 0;
        FwStartTrace dma (u32 (TRACE_EVENT_BUFFER_SIZE c))
                     (start_event_trace_res e);
        DmaFree (u32 (TRACE_EVENT_BUFFER_SIZE c)) cpu dma;
        FreeIrq (pci_irq_vector_res e);
        Kfree p;
        clear_msix_write c (ndev s)]
  /\ reports_failure
       (result (aie2_start_event_trace_send c e
                  (set_ndev (set_event_trace_enabled st (ndev s)) s))) = true
  /\ In (Log ERR "Send start event trace failed, ret %d"
             [start_event_trace_res e]) (events r).
Proof.
  intros Hsup Hflag Hst Hk Hd Hi Hfail r. subst r.
  destruct (enable_start_fails c e s p cpu dma Hk Hd Hi st Hsup Hflag Hst Hfail)
    as (t & -> & Heff & Hlog).
  destruct (start_send_fails c e p cpu dma Hk Hd Hi
              (set_ndev (set_event_trace_enabled st (ndev s)) s) Hfail)
    as (t2 & -> & _).
  unfold final, events, result. cbn.
  repeat split; try reflexivity; try assumption.
  unfold reports_failure, status_int, truthy.
  destruct (Z.eqb_spec (start_event_trace_res e) 0); [contradiction|].
  reflexivity.
Qed.

Lemma failed_start_recovery_witness :
  let c := Examples.config_of 164 in
  let s := Examples.machine 164 [] 0 0 0 None in
  let r := aie2_assign_event_trace_state c Examples.env_start_fails 1 s in
  event_trace_req (ndev (final r)) = None
  /\ kmem_live (final r) = []
  /\ dma_live (final r) = []
  /\ irq_live (final r) = []
  /\ effects (events r) =
       [Kzalloc (Some 0x7000); DmaAlloc 164 (Some (0x8000, 0x9000));
        RequestIrq 5 0; FwStartTrace 0x9000 164 (-5);
        DmaFree 164 0x8000 0x9000; FreeIrq 5; Kfree 0x7000;
        Writel 0 0x1100].
Proof.
  intros c s r.
  destruct (failed_start_recovery c Examples.env_start_fails s
              0x7000 0x8000 0x9000 1) as (H1 & H2 & H3 & H4 & H5 & _).
  - exists Examples.npu. cbn. repeat split; lia.
  - discriminate.
  - discriminate.
  - reflexivity.
  - reflexivity.
  - reflexivity.
  - discriminate.
  - repeat split; assumption.
Defined.

(** C3, as stated, fails on its last clause: the enable call is
    [aie2_assign_event_trace_state], a [void] function. After a start
    message that failed and a session that was released, it hands its
    caller the same (empty) value as after a successful start. *)
Lemma failed_start_unreported :
  let c := Examples.config_of 164 in
  let s := Examples.machine 164 [] 0 0 0 None in
  let r := aie2_assign_event_trace_state c Examples.env_start_fails 1 s in
  In (FwStartTrace 0x9000 164 (-5)) (events r)
  /\ event_trace_req (ndev (final r)) = None
  /\ reports_failure (result r) = false
  /\ result r = result (aie2_assign_event_trace_state c Examples.env_ok 1 s).
Proof.
  vm_compute. repeat split; try reflexivity.
  do 5 right. left. reflexivity.
Qed.

(** ** The flag after a failed start *)

(** C9. After an enable transition whose start message failed, the
    enablement flag holds the requested (enabled) value although the
    session was freed and [event_trace_req] is null; a following request
    for the same state is taken as already in state: it changes nothing
    and emits log lines only, so no new session is started. *)
Theorem failed_start_leaves_flag c e e' s p cpu dma st :
  trace_supported (ndev s) ->
  event_trace_enabled (ndev s) <> st ->
  st <> 0 ->
  kzalloc_res e = Some p ->
  dma_alloc_res e = Some (cpu, dma) ->
  request_irq_res e = 0 ->
  start_event_trace_res e <> 0 ->
  let s1 := final (aie2_assign_event_trace_state c e st s) in
  let r2 := aie2_assign_event_trace_state c e' st s1 in
  event_trace_enabled (ndev s1) = st
  /\ event_trace_req (ndev s1) = None
  /\ final r2 = s1
  /\ effects (events r2) = []
  /\ In (Log DBG "Event trace state is already %d" [st]) (events r2).
Proof.
  intros Hsup Hflag Hst Hk Hd Hi Hfail s1 r2. subst r2 s1.
  destruct (enable_start_fails c e s p cpu dma Hk Hd Hi st Hsup Hflag Hst Hfail)
    as (t & -> & _ & _).
  change (final (tt, ?x, t)) with x.
  set (s1 := set_ndev _ s).
  assert (Hsup1 : trace_supported (ndev s1)) by exact Hsup.
  destruct (same_state_noop c e' st s1 Hsup1 eq_refl) as (pd & _ & Hnoop).
  rewrite Hnoop. unfold final, events. cbn [fst snd].
  repeat split; try reflexivity.
  right. left. reflexivity.
Qed.

Lemma failed_start_leaves_flag_witness :
  let c := Examples.config_of 164 in
  let s := Examples.machine 164 [] 0 0 0 None in
  let s1 := final (aie2_assign_event_trace_state c Examples.env_start_fails
                     1 s) in
  let r2 := aie2_assign_event_trace_state c Examples.env_ok 1 s1 in
  event_trace_enabled (ndev s1) = 1
  /\ event_trace_req (ndev s1) = None
  /\ final r2 = s1
  /\ effects (events r2) = [].
Proof.
  intros c s s1 r2.
  destruct (failed_start_leaves_flag c Examples.env_start_fails
              Examples.env_ok s 0x7000 0x8000 0x9000 1)
    as (H1 & H2 & H3 & H4 & _).
  - exists Examples.npu. cbn. repeat split; lia.
  - discriminate.
  - discriminate.
  - reflexivity.
  - reflexivity.
  - reflexivity.
  - discriminate.
  - repeat split; assumption.
Defined.

(** ** Clearing the interrupt *)

(** C4, as the code has it. Every call that performs a transition (the
    device passes the capability gate and the requested state differs
    from the current one), enabling or disabling and whatever the start
    or stop does, writes the register that clears the log-buffer
    interrupt, as its last action before the closing log line; the mailbox
    base it is computed from is the one the device had at entry. The
    calls that return early, because the gate denies support or the
    requested state is the current one, do not write it. *)
Theorem transition_clears_msix c e st s :
  (trace_supported (ndev s) ->
   event_trace_enabled (ndev s) <> st ->
   ends_with
     [clear_msix_write c (ndev s); Log DBG "Event trace state: %d" [st]]
     (events (aie2_assign_event_trace_state c e st s))
   /\ mbox_base (ndev (final (aie2_assign_event_trace_state c e st s)))
      = mbox_base (ndev s))
  /\ (trace_supported (ndev s) ->
      event_trace_enabled (ndev s) = st ->
      effects (events (aie2_assign_event_trace_state c e st s)) = [])
  /\ ((forall p, pdev (ndev s) = Some p ->
                 device p <> 0x17f0 \/ revision p < 0x10) ->
      effects (events (aie2_assign_event_trace_state c e st s)) = []).
Proof.
  split; [|split].
  - intros Hsup Hflag. split.
    + apply transition_ends_with_clear; assumption.
    + apply assign_keeps_mbox_base.
  - intros Hsup Hflag.
    destruct (same_state_noop c e st s Hsup Hflag) as (p & _ & ->).
    reflexivity.
  - intros Hno. destruct (supported_no s Hno) as (t & Hrun & Hlog).
    unfold aie2_assign_event_trace_state, bind. rewrite Hrun. cbn.
    apply effects_logs. apply Forall_app. split; [exact Hlog|].
    repeat constructor.
Qed.

Lemma transition_clears_msix_witness :
  let c := Examples.config_of 164 in
  let s := State (Ndev (Some Examples.npu) 0x1000 2 1 (Some Examples.session))
                 [0x7000] [0x8000] [5] (Ring [] (Metadata 0 0)) [] true in
  ends_with [Writel 0 0x1100; Log DBG "Event trace state: %d" [0]]
            (events (aie2_assign_event_trace_state c Examples.env_ok 0 s)).
Proof.
  intros c s.
  apply (proj1 (transition_clears_msix c Examples.env_ok 0 s)).
  - exists Examples.npu. cbn. repeat split; lia.
  - discriminate.
Defined.

(** C4, as stated, fails on the early returns: a request for the state
    the device is already in emits two log lines and no register
    write. *)
Lemma same_state_skips_clear :
  let c := Examples.config_of 164 in
  let s := Examples.machine 164 [] 0 0 0 None in
  let r := aie2_assign_event_trace_state c Examples.env_ok 0 s in
  events r =
    [Log DBG "Dev id: 0x%x, Dev rev: 0x%x\n" [0x17f0; 0x10];
     Log DBG "Event trace state is already %d" [0]]
  /\ ~ In (clear_msix_write c (ndev s)) (events r)
  /\ existsb is_writel (events r) = false.
Proof.
  vm_compute. repeat split; try reflexivity.
  intros [H | [H | []]]; discriminate H.
Qed.

(** * Further properties of the unit *)

(** ** Session allocation *)

(** X1. [aie2_event_trace_alloc] returns 0 exactly when [kzalloc], the
    DMA allocator and [request_irq] all succeed, and it then publishes
    the fresh session and holds the three resources; otherwise it returns
    [-ENOMEM] for a failed allocation and [request_irq]'s code for a
    failed registration. *)
Theorem alloc_result c e s :
  let r := aie2_event_trace_alloc c e s in
  (result r = 0 <->
     exists p cpu dma,
       kzalloc_res e = Some p /\ dma_alloc_res e = Some (cpu, dma) /\
       request_irq_res e = 0)
  /\ (forall p cpu dma,
        kzalloc_res e = Some p -> dma_alloc_res e = Some (cpu, dma) ->
        request_irq_res e = 0 ->
        final r = with_session c e p cpu dma s
        /\ event_trace_req (ndev (final r))
           = Some (ReqBuf p cpu dma (u32 (TRACE_EVENT_BUFFER_SIZE c))
                          (pci_irq_vector_res e) 0 0)
        /\ kmem_live (final r) = p :: kmem_live s
        /\ dma_live (final r) = cpu :: dma_live s
        /\ irq_live (final r) = pci_irq_vector_res e :: irq_live s)
  /\ (kzalloc_res e = None \/ dma_alloc_res e = None -> result r = - ENOMEM)
  /\ (forall p cpu dma,
        kzalloc_res e = Some p -> dma_alloc_res e = Some (cpu, dma) ->
        request_irq_res e <> 0 -> result r = request_irq_res e).
Proof.
  intros r. subst r. unfold aie2_event_trace_alloc.
  destruct (kzalloc_res e) as [p|] eqn:Hk.
  2:{ cbn. split; [|split; [|split]].
      - split; [intros H; discriminate H|].
        intros (p & cpu & dma & H & _). discriminate H.
      - intros p cpu dma H. discriminate H.
      - intros _. reflexivity.
      - intros p cpu dma H. discriminate H. }
  destruct (dma_alloc_res e) as [[cpu dma]|] eqn:Hd.
  2:{ cbn. split; [|split; [|split]].
      - split; [intros H; discriminate H|].
        intros (p' & cpu & dma & _ & H & _). discriminate H.
      - intros p' cpu dma _ H. discriminate H.
      - intros _. reflexivity.
      - intros p' cpu dma _ H. discriminate H. }
  unfold truthy. destruct (Z.eqb_spec (request_irq_res e) 0) as [Hi | Hi].
  - cbn. split; [|split; [|split]].
    + split; [|reflexivity].
      intros _. exists p, cpu, dma. repeat split; assumption.
    + intros p' cpu' dma' Hp' Hd' _.
      injection Hp' as <-. injection Hd' as <- <-.
      repeat split; reflexivity.
    + intros [H | H]; discriminate H.
    + intros p' cpu' dma' _ _ Hne. contradiction.
  - cbn. split; [|split; [|split]].
    + split; [intros H; contradiction|].
      intros (_ & _ & _ & _ & _ & H). contradiction.
    + intros p' cpu' dma' _ _ H. contradiction.
    + intros [H | H]; discriminate H.
    + intros p' cpu' dma' _ _ _. reflexivity.
Qed.

Lemma alloc_result_witness :
  let s := Examples.machine 164 [] 0 0 0 None in
  let r := aie2_event_trace_alloc (Examples.config_of 164) Examples.env_ok s in
  event_trace_req (ndev (final r))
  = Some (ReqBuf 0x7000 0x8000 0x9000 164 5 0 0)
  /\ kmem_live (final r) = [0x7000]
  /\ dma_live (final r) = [0x8000]
  /\ irq_live (final r) = [5].
Proof.
  intros s r.
  destruct (proj1 (proj2 (alloc_result (Examples.config_of 164)
                            Examples.env_ok s))
              0x7000 0x8000 0x9000 eq_refl eq_refl eq_refl)
    as (_ & H2 & H3 & H4 & H5).
  split; [exact H2|]. split; [exact H3|]. split; [exact H4 | exact H5].
Defined.

(** X2. A failing [aie2_event_trace_alloc] leaks nothing and frees
    nothing it did not allocate: the live allocations, DMA buffers and
    interrupt registrations are those from before the call. When
    [kzalloc] itself fails the machine is untouched; on the later
    failure paths the device's session pointer is left null, whatever it
    held before. *)
Theorem alloc_failure_releases c e s :
  let r := aie2_event_trace_alloc c e s in
  result r <> 0 ->
  kmem_live (final r) = kmem_live s
  /\ dma_live (final r) = dma_live s
  /\ irq_live (final r) = irq_live s
  /\ (kzalloc_res e = None -> final r = s)
  /\ (kzalloc_res e <> None ->
      final r = set_ndev (set_event_trace_req None (ndev s)) s).
Proof.
  intros r. subst r. unfold aie2_event_trace_alloc.
  destruct (kzalloc_res e) as [p|] eqn:Hk.
  2:{ cbn. intros _. repeat split; try reflexivity.
      intros H. contradiction. }
  destruct (dma_alloc_res e) as [[cpu dma]|] eqn:Hd.
  2:{ unfold kfree, modify_ndev, modify, bind, emit, ret, result, final.
      cbn. rewrite Z.eqb_refl. intros _.
      repeat split; try reflexivity. intros H. discriminate H. }
  unfold truthy. destruct (Z.eqb_spec (request_irq_res e) 0) as [Hi | Hi].
  - cbn. intros H. contradiction.
  - unfold dma_free_noncoherent, kfree, modify_ndev, modify, bind, emit, ret,
      result, final.
    cbn. rewrite !Z.eqb_refl. intros _.
    repeat split; try reflexivity. intros H. discriminate H.
Qed.

Lemma alloc_failure_releases_witness :
  let e := Env (Some 0x7000) (Some (0x8000, 0x9000)) 5 (-16) 0 0 0 0 in
  let s := State (Ndev (Some Examples.npu) 0x1000 2 0 (Some Examples.session))
                 [0x7000] [0x8000] [5] (Ring [] (Metadata 0 0)) [] true in
  let r := aie2_event_trace_alloc (Examples.config_of 164) e s in
  result r = -16
  /\ kmem_live (final r) = [0x7000]
  /\ dma_live (final r) = [0x8000]
  /\ irq_live (final r) = [5]
  /\ event_trace_req (ndev (final r)) = None.
Proof.
  intros e s r.
  assert (Hne : result r <> 0) by (vm_compute; discriminate).
  destruct (alloc_failure_releases (Examples.config_of 164) e s Hne)
    as (H1 & H2 & H3 & _ & H5).
  split; [reflexivity|]. split; [exact H1|]. split; [exact H2|].
  split; [exact H3|].
  fold r in H5. rewrite H5; [reflexivity | discriminate].
Defined.

(** X3. Allocation and teardown pair up: after a successful
    [aie2_event_trace_alloc], [aie2_event_trace_free] releases exactly
    the control structure, DMA buffer and interrupt line that were
    acquired, with the DMA buffer freed under the size and addresses it
    was allocated with (the size fits the 32-bit request field), and the
    machine is the one before the allocation with a null session
    pointer. *)
Theorem alloc_free_round_trip c e s p cpu dma :
  0 <= TRACE_EVENT_BUFFER_SIZE c < 2 ^ 32 ->
  kzalloc_res e = Some p ->
  dma_alloc_res e = Some (cpu, dma) ->
  request_irq_res e = 0 ->
  let r := aie2_event_trace_alloc c e s in
  effects (events r) =
    [Kzalloc (Some p); DmaAlloc (TRACE_EVENT_BUFFER_SIZE c) (Some (cpu, dma));
     RequestIrq (pci_irq_vector_res e) 0]
  /\ aie2_event_trace_free (final r) =
       (tt, set_ndev (set_event_trace_req None (ndev s)) s,
        [DmaFree (TRACE_EVENT_BUFFER_SIZE c) cpu dma;
         FreeIrq (pci_irq_vector_res e); Kfree p]).
Proof.
  intros HB Hk Hd Hi r. subst r.
  rewrite (alloc_succeeds c e p cpu dma Hk Hd Hi s).
  unfold final, events. cbn [fst snd]. split; [reflexivity|].
  rewrite free_allocated. rewrite u32_small by exact HB. reflexivity.
Qed.

Lemma alloc_free_round_trip_witness :
  let c := Examples.config_of 164 in
  let s := Examples.machine 164 [] 0 0 0 None in
  aie2_event_trace_free (final (aie2_event_trace_alloc c Examples.env_ok s))
  = (tt, s, [DmaFree 164 0x8000 0x9000; FreeIrq 5; Kfree 0x7000]).
Proof.
  intros c s.
  apply (proj2 (alloc_free_round_trip c Examples.env_ok s 0x7000 0x8000 0x9000
                  ltac:(vm_compute; split; [discriminate | reflexivity])
                  eq_refl eq_refl eq_refl)).
Defined.

(** ** Starting and stopping *)

Ltac bool_hyps :=
  repeat match goal with
         | H : (_ =? _) = true |- _ => apply Z.eqb_eq in H
         | H : (_ =? _) = false |- _ => apply Z.eqb_neq in H
         | H : (_ >=? _) = true |- _ => apply Z.geb_le in H
         | H : (_ >=? _) = false |- _ => rewrite Z.geb_leb in H; apply Z.leb_gt in H
         | H : negb _ = true |- _ => apply negb_true_iff in H
         | H : negb _ = false |- _ => apply negb_false_iff in H
         | H : (_ && _) = true |- _ => apply andb_true_iff in H; destruct H
         end.

(** X4. [aie2_start_event_trace_send] contacts the firmware only after a
    successful allocation: when the allocation fails it returns that
    error, sends no start message and adds nothing to what the
    allocation did; when it succeeds it sends one start message carrying
    the DMA address the allocator returned and the region size as a
    32-bit value, and returns the mailbox status. *)
Theorem start_send_after_alloc c e s :
  (result (aie2_event_trace_alloc c e s) <> 0 ->
   result (aie2_start_event_trace_send c e s)
     = result (aie2_event_trace_alloc c e s)
   /\ final (aie2_start_event_trace_send c e s)
      = final (aie2_event_trace_alloc c e s)
   /\ effects (events (aie2_start_event_trace_send c e s))
      = effects (events (aie2_event_trace_alloc c e s))
   /\ existsb is_fw_start (events (aie2_event_trace_alloc c e s)) = false)
  /\ (forall p cpu dma,
        kzalloc_res e = Some p -> dma_alloc_res e = Some (cpu, dma) ->
        request_irq_res e = 0 ->
        result (aie2_start_event_trace_send c e s) = start_event_trace_res e
        /\ effects (events (aie2_start_event_trace_send c e s)) =
             [Kzalloc (Some p);
              DmaAlloc (TRACE_EVENT_BUFFER_SIZE c) (Some (cpu, dma));
              RequestIrq (pci_irq_vector_res e) 0;
              FwStartTrace dma (u32 (TRACE_EVENT_BUFFER_SIZE c))
                           (start_event_trace_res e)]).
Proof.
  split.
  - destruct s as [d km dm iq rg gb lk]. destruct d as [pd mb ds en rq].
    destruct e as [kz da iv ri sr ct kt sp].
    unfold result, final, events, effects. run_driver. unfold truthy.
    destruct kz as [p|]; cbn; [|intros _; repeat split; reflexivity].
    destruct da as [[cpu dma]|]; cbn; [|intros _; repeat split; reflexivity].
    destruct (Z.eqb_spec ri 0); cbn; [intros H; contradiction|].
    destruct (Z.eqb_spec ri 0); [contradiction|]. cbn.
    intros _. repeat split; reflexivity.
  - intros p cpu dma Hk Hd Hi.
    unfold aie2_start_event_trace_send, bind.
    rewrite (alloc_succeeds c e p cpu dma Hk Hd Hi s).
    unfold aie2_start_event_trace, aie2_set_trace_timestamp, warn_unless_locked,
      truthy, modify_ndev, modify, bind, get, emit, ret, result, events, effects.
    cbn.
    destruct (Z.eqb_spec (start_event_trace_res e) 0) as [E|E];
      destruct (dev_locked s); cbn; rewrite ?E; split; reflexivity.
Qed.

Lemma start_send_after_alloc_witness :
  let c := Examples.config_of 164 in
  let s := Examples.machine 164 [] 0 0 0 None in
  let e := Env None (Some (0x8000, 0x9000)) 5 0 0 0 0 0 in
  result (aie2_start_event_trace_send c e s) = -12
  /\ final (aie2_start_event_trace_send c e s) = s
  /\ effects (events (aie2_start_event_trace_send c e s)) = [Kzalloc None].
Proof.
  intros c s e.
  assert (Hne : result (aie2_event_trace_alloc c e s) <> 0)
    by (vm_compute; discriminate).
  destruct (proj1 (start_send_after_alloc c e s) Hne) as (H1 & H2 & H3 & _).
  split; [exact H1|]. split; [exact H2 | exact H3].
Defined.

(** *** Helper runs *)

(** A successful enable, as one run. *)
Lemma enable_succeeds_run c e s p cpu dma st :
  trace_supported (ndev s) ->
  event_trace_enabled (ndev s) <> st ->
  st <> 0 ->
  kzalloc_res e = Some p ->
  dma_alloc_res e = Some (cpu, dma) ->
  request_irq_res e = 0 ->
  start_event_trace_res e = 0 ->
  exists t r',
    aie2_assign_event_trace_state c e st s =
      (tt,
       State (Ndev (pdev (ndev s)) (mbox_base (ndev s)) (dev_status (ndev s))
                   st (Some r'))
             (p :: kmem_live s) (cpu :: dma_live s)
             (pci_irq_vector_res e :: irq_live s)
             (ring s) (g_fwLogBuf s) (dev_locked s),
       t)
    /\ req_addr r' = p /\ buf r' = cpu /\ dram_buffer_address r' = dma
    /\ dram_buffer_size r' = u32 (TRACE_EVENT_BUFFER_SIZE c)
    /\ log_ch_irq r' = pci_irq_vector_res e
    /\ effects t =
         [Kzalloc (Some p);
          DmaAlloc (TRACE_EVENT_BUFFER_SIZE c) (Some (cpu, dma));
          RequestIrq (pci_irq_vector_res e) 0;
          FwStartTrace dma (u32 (TRACE_EVENT_BUFFER_SIZE c)) 0;
          clear_msix_write c (ndev s)].
Proof.
  intros (pd' & Hp & Hdev & Hrev) Hflag Hst Hk Hd Hi Hs.
  destruct s as [d km dm iq rg gb lk]. destruct d as [pd mb ds en rq].
  destruct e as [kz da iv ri sr ct kt sp].
  cbn in Hp, Hflag, Hk, Hd, Hi, Hs. subst pd kz da ri sr.
  unfold effects, clear_msix_write. run_driver. unfold truthy. rewrite Hdev.
  destruct (Z.geb_spec (revision pd') 16); [|lia]. cbn.
  destruct (Z.eqb_spec en st); [contradiction|]. cbn.
  destruct (Z.eqb_spec st 0); [contradiction|]. cbn.
  destruct lk; cbn; eexists _, _; (split; [reflexivity|]);
    cbn; repeat split; reflexivity.
Qed.

(** A disable on a started device with a live session, as one run. *)
Lemma disable_run c e s rq :
  trace_supported (ndev s) ->
  event_trace_enabled (ndev s) <> 0 ->
  AIE2_DEV_START c <= dev_status (ndev s) ->
  event_trace_req (ndev s) = Some rq ->
  exists t,
    aie2_assign_event_trace_state c e 0 s =
      (tt, torn_down rq (set_ndev (set_event_trace_enabled 0 (ndev s)) s), t)
    /\ effects t =
         FwStopTrace (stop_event_trace_res e)
           :: teardown_events rq ++ [clear_msix_write c (ndev s)].
Proof.
  intros (pd' & Hp & Hdev & Hrev) Hflag Hstart Hrq.
  destruct s as [d km dm iq rg gb lk]. destruct d as [pd mb ds en rq0].
  destruct e as [kz da iv ri sr ct kt sp].
  cbn in Hp, Hflag, Hstart, Hrq. subst pd rq0.
  unfold effects, clear_msix_write, torn_down, teardown_events.
  run_driver. unfold truthy. rewrite Hdev.
  destruct (Z.geb_spec (revision pd') 16); [|lia]. cbn.
  destruct (Z.eqb_spec en 0); [contradiction|]. cbn.
  destruct (Z.geb_spec ds (AIE2_DEV_START c)); [|lia]. cbn.
  destruct lk; cbn; eexists; split; reflexivity.
Qed.

(** X5. A successful enable (the gate passes, the state changes to a
    nonzero value, the three acquisitions and the start message succeed)
    sets the flag to the requested value, publishes a session that
    records the control structure, the DMA buffer's CPU and device
    addresses, the 32-bit region size and the interrupt line, holds
    exactly these three resources in addition to the earlier ones, and
    performs, in order: the two allocations, the interrupt registration,
    the start message and the interrupt-clearing register write. *)
Theorem enable_succeeds c e s p cpu dma st :
  trace_supported (ndev s) ->
  event_trace_enabled (ndev s) <> st ->
  st <> 0 ->
  kzalloc_res e = Some p ->
  dma_alloc_res e = Some (cpu, dma) ->
  request_irq_res e = 0 ->
  start_event_trace_res e = 0 ->
  let r := aie2_assign_event_trace_state c e st s in
  event_trace_enabled (ndev (final r)) = st
  /\ (exists r',
        event_trace_req (ndev (final r)) = Some r'
        /\ req_addr r' = p /\ buf r' = cpu /\ dram_buffer_address r' = dma
        /\ dram_buffer_size r' = u32 (TRACE_EVENT_BUFFER_SIZE c)
        /\ log_ch_irq r' = pci_irq_vector_res e)
  /\ kmem_live (final r) = p :: kmem_live s
  /\ dma_live (final r) = cpu :: dma_live s
  /\ irq_live (final r) = pci_irq_vector_res e :: irq_live s
  /\ effects (events r) =
       [Kzalloc (Some p);
        DmaAlloc (TRACE_EVENT_BUFFER_SIZE c) (Some (cpu, dma));
        RequestIrq (pci_irq_vector_res e) 0;
        FwStartTrace dma (u32 (TRACE_EVENT_BUFFER_SIZE c)) 0;
        clear_msix_write c (ndev s)].
Proof.
  intros Hsup Hflag Hst Hk Hd Hi Hs r. subst r.
  destruct (enable_succeeds_run c e s p cpu dma st Hsup Hflag Hst Hk Hd Hi Hs)
    as (t & r' & -> & H1 & H2 & H3 & H4 & H5 & Heff).
  unfold final, events. cbn [fst snd ndev event_trace_enabled event_trace_req
                             kmem_live dma_live irq_live].
  split; [reflexivity|]. split.
  - exists r'. repeat split; assumption.
  - repeat split; try reflexivity. exact Heff.
Qed.

Lemma enable_succeeds_witness :
  let c := Examples.config_of 164 in
  let s := Examples.machine 164 [] 0 0 0 None in
  let r := aie2_assign_event_trace_state c Examples.env_ok 1 s in
  event_trace_enabled (ndev (final r)) = 1
  /\ kmem_live (final r) = [0x7000]
  /\ dma_live (final r) = [0x8000]
  /\ irq_live (final r) = [5]
  /\ effects (events r) =
       [Kzalloc (Some 0x7000); DmaAlloc 164 (Some (0x8000, 0x9000));
        RequestIrq 5 0; FwStartTrace 0x9000 164 0; Writel 0 0x1100].
Proof.
  intros c s r.
  destruct (enable_succeeds c Examples.env_ok s 0x7000 0x8000 0x9000 1)
    as (H1 & _ & H3 & H4 & H5 & H6).
  - exists Examples.npu. cbn. repeat split; lia.
  - discriminate.
  - discriminate.
  - reflexivity.
  - reflexivity.
  - reflexivity.
  - reflexivity.
  - split; [exact H1|]. split; [exact H3|]. split; [exact H4|].
    split; [exact H5 | exact H6].
Defined.

(** X6. Disabling a started device with a live session sends the stop
    message and then tears the session down whatever the mailbox
    answers: the flag is cleared, the session pointer is null, the
    session's DMA buffer, interrupt line and control structure are
    released (with the size and addresses recorded in the session), and
    the interrupt-clearing register write comes last. *)
Theorem disable_tears_down c e s rq :
  trace_supported (ndev s) ->
  event_trace_enabled (ndev s) <> 0 ->
  AIE2_DEV_START c <= dev_status (ndev s) ->
  event_trace_req (ndev s) = Some rq ->
  let r := aie2_assign_event_trace_state c e 0 s in
  final r = torn_down rq (set_ndev (set_event_trace_enabled 0 (ndev s)) s)
  /\ effects (events r) =
       FwStopTrace (stop_event_trace_res e)
         :: teardown_events rq ++ [clear_msix_write c (ndev s)].
Proof.
  intros Hsup Hflag Hstart Hrq r. subst r.
  destruct (disable_run c e s rq Hsup Hflag Hstart Hrq) as (t & -> & Heff).
  split; [reflexivity | exact Heff].
Qed.

Lemma disable_tears_down_witness :
  let c := Examples.config_of 164 in
  let e := Env None None 0 0 0 0 0 (-110) in
  let s := State (Ndev (Some Examples.npu) 0x1000 2 1 (Some Examples.session))
                 [0x7000] [0x8000] [5] (Ring [] (Metadata 0 0)) [] true in
  let r := aie2_assign_event_trace_state c e 0 s in
  final r = Examples.machine 0 [] 0 0 0 None
  /\ effects (events r) =
       [FwStopTrace (-110); DmaFree 1064 0x8000 0x9000; FreeIrq 5;
        Kfree 0x7000; Writel 0 0x1100].
Proof.
  intros c e s r.
  destruct (disable_tears_down c e s Examples.session) as (H1 & H2).
  - exists Examples.npu. cbn. repeat split; lia.
  - discriminate.
  - cbn. lia.
  - reflexivity.
  - split; [exact H1 | exact H2].
Defined.

(** X7. Disabling a device that has not reached [AIE2_DEV_START] only
    clears the flag and writes the interrupt-clearing register: no stop
    message is sent and a session that exists stays published with its
    resources live. *)
Theorem disable_before_start c e s :
  trace_supported (ndev s) ->
  event_trace_enabled (ndev s) <> 0 ->
  dev_status (ndev s) < AIE2_DEV_START c ->
  let r := aie2_assign_event_trace_state c e 0 s in
  final r = set_ndev (set_event_trace_enabled 0 (ndev s)) s
  /\ effects (events r) = [clear_msix_write c (ndev s)].
Proof.
  intros (pd' & Hp & Hdev & Hrev) Hflag Hstart r. subst r.
  destruct s as [d km dm iq rg gb lk]. destruct d as [pd mb ds en rq0].
  cbn in Hp, Hflag, Hstart. subst pd.
  unfold final, events, effects, clear_msix_write. run_driver.
  unfold truthy. rewrite Hdev.
  destruct (Z.geb_spec (revision pd') 16); [|lia]. cbn.
  destruct (Z.eqb_spec en 0); [contradiction|]. cbn.
  destruct (Z.geb_spec ds (AIE2_DEV_START c)); [lia|]. cbn.
  split; reflexivity.
Qed.

Lemma disable_before_start_witness :
  let c := Examples.config_of 164 in
  let s := State (Ndev (Some Examples.npu) 0x1000 1 1 (Some Examples.session))
                 [0x7000] [0x8000] [5] (Ring [] (Metadata 0 0)) [] true in
  let r := aie2_assign_event_trace_state c Examples.env_ok 0 s in
  event_trace_req (ndev (final r)) = Some Examples.session
  /\ event_trace_enabled (ndev (final r)) = 0
  /\ dma_live (final r) = [0x8000]
  /\ effects (events r) = [Writel 0 0x1100].
Proof.
  intros c s r.
  destruct (disable_before_start c Examples.env_ok s) as (H1 & H2).
  - exists Examples.npu. cbn. repeat split; lia.
  - discriminate.
  - cbn. lia.
  - fold r in H1. rewrite H1. split; [reflexivity|]. split; [reflexivity|].
    split; [reflexivity | exact H2].
Defined.

(** *** Composition *)

(** X8. Enable followed by disable is a round trip: on a started,
    supported device with tracing off and no session, a successful
    enable followed by a disable returns the machine to the state it
    started from, whatever the stop message returns. *)
Theorem enable_disable_round_trip c e e' s p cpu dma st :
  trace_supported (ndev s) ->
  event_trace_enabled (ndev s) = 0 ->
  event_trace_req (ndev s) = None ->
  AIE2_DEV_START c <= dev_status (ndev s) ->
  st <> 0 ->
  kzalloc_res e = Some p ->
  dma_alloc_res e = Some (cpu, dma) ->
  request_irq_res e = 0 ->
  start_event_trace_res e = 0 ->
  final (aie2_assign_event_trace_state c e' 0
           (final (aie2_assign_event_trace_state c e st s))) = s.
Proof.
  intros Hsup Hflag Hrq Hstart Hst Hk Hd Hi Hs.
  destruct (enable_succeeds_run c e s p cpu dma st Hsup
              ltac:(rewrite Hflag; congruence) Hst Hk Hd Hi Hs)
    as (t & r' & -> & H1 & H2 & H3 & H4 & H5 & _).
  change (final (tt, ?x, t)) with x.
  set (s1 := State _ _ _ _ _ _ _).
  destruct (disable_run c e' s1 r') as (t2 & -> & _);
    [exact Hsup | exact Hst | exact Hstart | reflexivity |].
  change (final (tt, ?x, t2)) with x.
  unfold torn_down, s1. cbn. rewrite H1, H2, H5, !Z.eqb_refl.
  destruct s as [d km dm iq rg gb lk]. destruct d as [pd mb ds en rq].
  cbn in Hflag, Hrq. subst en rq. reflexivity.
Qed.

Lemma enable_disable_round_trip_witness :
  let c := Examples.config_of 164 in
  let s := Examples.machine 164 [] 0 0 0 None in
  final (aie2_assign_event_trace_state c Examples.env_start_fails 0
           (final (aie2_assign_event_trace_state c Examples.env_ok 1 s))) = s.
Proof.
  intros c s.
  apply (enable_disable_round_trip c Examples.env_ok Examples.env_start_fails
           s 0x7000 0x8000 0x9000 1).
  - exists Examples.npu. cbn. repeat split; lia.
  - reflexivity.
  - reflexivity.
  - cbn. lia.
  - discriminate.
  - reflexivity.
  - reflexivity.
  - reflexivity.
  - reflexivity.
Defined.

(** After any call on a supported device the flag holds the requested
    state and the device is the same PCI function. *)
Lemma assign_sets_flag c e st s :
  trace_supported (ndev s) ->
  event_trace_enabled (ndev (final (aie2_assign_event_trace_state c e st s)))
  = st
  /\ pdev (ndev (final (aie2_assign_event_trace_state c e st s)))
     = pdev (ndev s).
Proof.
  intros (pd' & Hp & Hdev & Hrev).
  destruct s as [d km dm iq rg gb lk]. destruct d as [pd mb ds en rq].
  destruct e as [kz da iv ri sr ct kt sp].
  cbn in Hp. subst pd.
  unfold final. run_driver. rewrite Hdev.
  destruct (Z.geb_spec (revision pd') 16); [|lia]. cbn.
  destruct (Z.eqb_spec en st); cbn; [split; [assumption | reflexivity]|].
  split_cases; split; reflexivity.
Qed.

(** X9. Toggling is idempotent: after any call on a supported device,
    whatever the collaborators did, the flag holds the requested state,
    so a second call with the same state changes nothing and performs
    nothing but logging: no allocation, no firmware message, no register
    write. *)
Theorem repeated_request_is_noop c e e' st s :
  trace_supported (ndev s) ->
  let s1 := final (aie2_assign_event_trace_state c e st s) in
  event_trace_enabled (ndev s1) = st
  /\ final (aie2_assign_event_trace_state c e' st s1) = s1
  /\ effects (events (aie2_assign_event_trace_state c e' st s1)) = [].
Proof.
  intros Hsup s1.
  destruct (assign_sets_flag c e st s Hsup) as [Hflag Hpdev].
  fold s1 in Hflag, Hpdev.
  assert (Hsup1 : trace_supported (ndev s1)).
  { destruct Hsup as (pd' & Hp & Hd). exists pd'.
    rewrite Hpdev. split; assumption. }
  destruct (same_state_noop c e' st s1 Hsup1 Hflag) as (pd & _ & Hnoop).
  rewrite Hnoop. split; [exact Hflag|]. split; reflexivity.
Qed.

Lemma repeated_request_is_noop_witness :
  let c := Examples.config_of 164 in
  let s := Examples.machine 164 [] 0 0 0 None in
  let s1 := final (aie2_assign_event_trace_state c Examples.env_ok 1 s) in
  final (aie2_assign_event_trace_state c Examples.env_ok 1 s1) = s1
  /\ effects (events (aie2_assign_event_trace_state c Examples.env_ok 1 s1))
     = [].
Proof.
  intros c s s1.
  apply (repeated_request_is_noop c Examples.env_ok Examples.env_ok 1 s).
  exists Examples.npu. cbn. repeat split; lia.
Defined.

(** *** Invariants *)

(** X10. No dangling session: if the published session (when there is
    one) has its control structure, DMA buffer and interrupt line live,
    the same holds after any call of [aie2_assign_event_trace_state],
    whatever the requested state and whatever the collaborators
    return. *)
Theorem assign_keeps_session_backed c e st s :
  session_backed s ->
  session_backed (final (aie2_assign_event_trace_state c e st s)).
Proof.
  intros Hb.
  destruct s as [d km dm iq rg gb lk]. destruct d as [pd mb ds en rq].
  destruct e as [kz da iv ri sr ct kt sp].
  unfold session_backed in *. cbn in Hb.
  unfold final. run_driver.
  destruct rq as [rq|]; split_cases; cbn;
    first [exact I | exact Hb | (repeat split; left; reflexivity)].
Qed.

Lemma assign_keeps_session_backed_witness :
  session_backed
    (final (aie2_assign_event_trace_state (Examples.config_of 164)
              Examples.env_ok 1 (Examples.machine 164 [] 0 0 0 None))).
Proof.
  apply assign_keeps_session_backed. exact I.
Defined.

(** X11. The state machine touches only the flag, the session pointer
    and the live resources: the PCI identity, the mailbox base, the
    device status, the contents of the DMA region, the scratch buffer and
    the lock are the same after any call. *)
Theorem assign_frame c e st s :
  let s' := final (aie2_assign_event_trace_state c e st s) in
  pdev (ndev s') = pdev (ndev s)
  /\ mbox_base (ndev s') = mbox_base (ndev s)
  /\ dev_status (ndev s') = dev_status (ndev s)
  /\ ring s' = ring s
  /\ g_fwLogBuf s' = g_fwLogBuf s
  /\ dev_locked s' = dev_locked s.
Proof.
  destruct s as [d km dm iq rg gb lk]. destruct d as [pd mb ds en rq].
  destruct e as [kz da iv ri sr ct kt sp].
  unfold final. run_driver. split_cases; repeat split; reflexivity.
Qed.

(** X20. Disabling a device that has no session, as after a failed
    start, contacts nobody: whatever the device status, no stop message
    is sent and nothing is freed; the flag is cleared and the
    interrupt-clearing register is written, so that a later enable starts
    afresh. *)
Theorem disable_without_session c e s :
  trace_supported (ndev s) ->
  event_trace_enabled (ndev s) <> 0 ->
  event_trace_req (ndev s) = None ->
  let r := aie2_assign_event_trace_state c e 0 s in
  final r = set_ndev (set_event_trace_enabled 0 (ndev s)) s
  /\ effects (events r) = [clear_msix_write c (ndev s)].
Proof.
  intros (pd' & Hp & Hdev & Hrev) Hflag Hrq r. subst r.
  destruct s as [d km dm iq rg gb lk]. destruct d as [pd mb ds en rq0].
  cbn in Hp, Hflag, Hrq. subst pd rq0.
  unfold final, events, effects, clear_msix_write. run_driver.
  unfold truthy. rewrite Hdev.
  destruct (Z.geb_spec (revision pd') 16); [|lia]. cbn.
  destruct (Z.eqb_spec en 0); [contradiction|]. cbn.
  destruct (ds >=? AIE2_DEV_START c); cbn; split; reflexivity.
Qed.

Lemma disable_without_session_witness :
  let c := Examples.config_of 164 in
  let s1 := final (aie2_assign_event_trace_state c Examples.env_start_fails 1
                     (Examples.machine 164 [] 0 0 0 None)) in
  let r := aie2_assign_event_trace_state c Examples.env_ok 0 s1 in
  final r = Examples.machine 164 [] 0 0 0 None
  /\ effects (events r) = [Writel 0 0x1100].
Proof.
  intros c s1 r.
  destruct (disable_without_session c Examples.env_ok s1) as (H1 & H2).
  - exists Examples.npu. cbn. repeat split; lia.
  - discriminate.
  - reflexivity.
  - split; [exact H1 | exact H2].
Defined.

(** ** The drain in general *)

(** *** The copy primitive *)

Lemma memcpy_length dst doff src soff n :
  0 <= doff -> 0 <= n -> 0 <= soff ->
  (Z.to_nat soff + Z.to_nat n <= length src)%nat ->
  (Z.to_nat doff + Z.to_nat n <= length dst)%nat ->
  length (memcpy dst doff src soff n) = length dst.
Proof.
  intros Hd Hn Hs Hsrc Hdst. unfold memcpy.
  rewrite !length_app, !length_take, !length_drop.
  rewrite Z2Nat.inj_add by lia. lia.
Qed.

Lemma memcpy_lookup_in dst doff src soff n (i : nat) :
  0 <= doff -> 0 <= n -> 0 <= soff ->
  (Z.to_nat soff + Z.to_nat n <= length src)%nat ->
  (Z.to_nat doff <= length dst)%nat ->
  (Z.to_nat doff <= i < Z.to_nat doff + Z.to_nat n)%nat ->
  memcpy dst doff src soff n !! i
  = src !! (Z.to_nat soff + (i - Z.to_nat doff))%nat.
Proof.
  intros Hd Hn Hs Hsrc Hdst Hi. unfold memcpy.
  rewrite lookup_app_r by (rewrite length_take; lia).
  rewrite length_take, Nat.min_l by lia.
  rewrite lookup_app_l by (rewrite length_take, length_drop; lia).
  rewrite lookup_take_lt by lia. apply lookup_drop.
Qed.

Lemma memcpy_lookup_out dst doff src soff n (i : nat) :
  0 <= doff -> 0 <= n -> 0 <= soff ->
  (Z.to_nat soff + Z.to_nat n <= length src)%nat ->
  (Z.to_nat doff + Z.to_nat n <= length dst)%nat ->
  (i < Z.to_nat doff \/ Z.to_nat doff + Z.to_nat n <= i)%nat ->
  memcpy dst doff src soff n !! i = dst !! i.
Proof.
  intros Hd Hn Hs Hsrc Hdst Hi. unfold memcpy.
  destruct Hi as [Hlo | Hhi].
  - rewrite lookup_app_l by (rewrite length_take; lia).
    apply lookup_take_lt. exact Hlo.
  - rewrite lookup_app_r by (rewrite length_take; lia).
    rewrite length_take, Nat.min_l by lia.
    rewrite lookup_app_r by (rewrite length_take, length_drop; lia).
    rewrite length_take, length_drop, Nat.min_l by lia.
    rewrite lookup_drop. f_equal. rewrite Z2Nat.inj_add by lia. lia.
Qed.

Lemma mod_below x b : - b < x < 0 -> x mod b = x + b.
Proof.
  intros H. rewrite <- (Z.mod_add x 1 b) by lia.
  rewrite Z.mul_1_l. apply Z.mod_small. lia.
Qed.

Lemma mod_above x b : b <= x < 2 * b -> x mod b = x - b.
Proof.
  intros H. replace x with (x - b + 1 * b) at 1 by lia.
  rewrite Z.mod_add by lia. apply Z.mod_small. lia.
Qed.

Lemma do_copy_buf off rd n s :
  g_fwLogBuf (do_copy g_fwLogBuf_ptr off rd n s)
  = memcpy (g_fwLogBuf s) off (log_area (ring s)) rd n.
Proof. reflexivity. Qed.

(** *** Whole laps *)

(** X12. When the read cursor [head_offset mod rb_size] equals the write
    cursor, which is the low 32 bits of [tail_offset] modulo [rb_size],
    the drain returns 0 and copies nothing: the scratch buffer and the
    log area are as before, yet [head_offset] receives the low 32 bits of
    the tail. In particular, when [tail_offset] is [head_offset] plus any
    whole number of laps and below 2^32, the drain reports no data and
    [head_offset] becomes [tail_offset]: exactly [rb_size] unread bytes
    are reported as none and skipped. *)
Theorem drain_whole_laps_empty fuel c req s :
  (1 <= fuel)%nat ->
  rb_size c <> 0 ->
  u64 (buf req + rb_size c) <> 0 ->
  let r := aie2_get_trace_event_content fuel c req g_fwLogBuf_ptr s in
  let tail := tail_offset (metadata (ring s)) in
  (rd_ptr_of c (metadata (ring s)) = wr_ptr_wrap_of c (metadata (ring s)) ->
   result r = Some 0
   /\ events r = [HeadOffsetStore (tail mod 2 ^ 32)]
   /\ head_offset (metadata (ring (final r))) = tail mod 2 ^ 32
   /\ tail_offset (metadata (ring (final r))) = tail
   /\ log_area (ring (final r)) = log_area (ring s)
   /\ g_fwLogBuf (final r) = g_fwLogBuf s)
  /\ (forall k,
        0 <= head_offset (metadata (ring s)) -> 0 <= k ->
        tail = head_offset (metadata (ring s)) + k * rb_size c ->
        tail < 2 ^ 32 ->
        result r = Some 0
        /\ events r = [HeadOffsetStore tail]
        /\ head_offset (metadata (ring (final r))) = tail
        /\ g_fwLogBuf (final r) = g_fwLogBuf s).
Proof.
  intros Hfuel Hrb Hptr r tail. subst r.
  destruct fuel as [|fuel]; [lia|].
  pose proof (rb_size_bound c) as Hb.
  assert (Hlevel :
    rd_ptr_of c (metadata (ring s)) = wr_ptr_wrap_of c (metadata (ring s)) ->
    aie2_get_trace_event_content (S fuel) c req g_fwLogBuf_ptr s =
      (Some 0, set_head_offset (tail mod 2 ^ 32) s,
       [HeadOffsetStore (tail mod 2 ^ 32)])).
  { intros Heq. rewrite drain_level by assumption. reflexivity. }
  split.
  - intros Heq. rewrite (Hlevel Heq).
    unfold result, events, final. cbn [fst snd].
    repeat split; reflexivity.
  - intros k Hhead Hk Htail Hfit.
    assert (Hsmall : tail mod 2 ^ 32 = tail) by (apply Z.mod_small; nia).
    assert (Heq : rd_ptr_of c (metadata (ring s))
                  = wr_ptr_wrap_of c (metadata (ring s))).
    { unfold rd_ptr_of, wr_ptr_wrap_of, wr_ptr_of, u32. fold tail.
      rewrite Hsmall, Htail, Z.mod_add by exact Hrb.
      apply Z.mod_small.
      pose proof (Z.mod_pos_bound (head_offset (metadata (ring s)))
                    (rb_size c) ltac:(lia)).
      lia. }
    rewrite (Hlevel Heq), Hsmall.
    unfold result, events, final. cbn [fst snd].
    repeat split; reflexivity.
Qed.

(** One whole lap: 100 unread bytes in a 100-byte log area. *)
Lemma drain_whole_laps_empty_witness :
  let s := Examples.machine 164 (Examples.ramp 100) 90 190 1
             (Some Examples.session) in
  let r := aie2_get_trace_event_content 2 (Examples.config_of 164)
             Examples.session g_fwLogBuf_ptr s in
  result r = Some 0
  /\ events r = [HeadOffsetStore 190]
  /\ head_offset (metadata (ring (final r))) = 190
  /\ g_fwLogBuf (final r) = repeat x00 164.
Proof.
  intros s r.
  destruct (drain_whole_laps_empty 2 (Examples.config_of 164)
              Examples.session s ltac:(lia)
              ltac:(vm_compute; discriminate)
              ltac:(vm_compute; discriminate)) as (_ & Hlaps).
  apply (Hlaps 1); vm_compute; first [reflexivity | discriminate].
Defined.

(** *** Linearisation *)

(** X13. In general the drain returns [n = (wr_ptr_wrap - rd_ptr) mod
    rb_size] and linearises the ring: with a log area of [rb_size] bytes
    and a scratch buffer at least that long, byte [i < n] of the scratch
    buffer is afterwards the byte of the log area at physical offset
    [(rd_ptr + i) mod rb_size], the scratch buffer keeps its length and
    its bytes from [n] on, and the read cursor advanced by [n] is the
    wrapped write cursor. *)
Theorem drain_linearizes fuel c req s :
  (2 <= fuel)%nat ->
  rb_size c <> 0 ->
  u64 (buf req + rb_size c) <> 0 ->
  length (log_area (ring s)) = Z.to_nat (rb_size c) ->
  (Z.to_nat (rb_size c) <= length (g_fwLogBuf s))%nat ->
  let rd := rd_ptr_of c (metadata (ring s)) in
  let wr := wr_ptr_wrap_of c (metadata (ring s)) in
  let n := (wr - rd) mod rb_size c in
  let r := aie2_get_trace_event_content fuel c req g_fwLogBuf_ptr s in
  result r = Some n
  /\ length (g_fwLogBuf (final r)) = length (g_fwLogBuf s)
  /\ (forall i, 0 <= i < n ->
        g_fwLogBuf (final r) !! Z.to_nat i
        = ring_byte s ((rd + i) mod rb_size c))
  /\ (forall j : nat, (Z.to_nat n <= j)%nat ->
        g_fwLogBuf (final r) !! j = g_fwLogBuf s !! j)
  /\ (rd + n) mod rb_size c = wr.
Proof.
  intros Hfuel Hrb Hptr Hlen Hkb rd wr n r. subst r.
  destruct fuel as [|[|fuel]]; [lia | lia |].
  pose proof (rb_size_bound c) as Hb.
  pose proof (rd_ptr_bound c (metadata (ring s)) Hrb) as Hrd. fold rd in Hrd.
  pose proof (wr_ptr_wrap_bound c (metadata (ring s)) Hrb) as Hwr.
  fold wr in Hwr.
  unfold ring_byte.
  destruct (Z.lt_trichotomy rd wr) as [Hlt | [Heq | Hgt]].
  - (* ahead *)
    assert (Hn : n = wr - rd) by (apply Z.mod_small; lia).
    rewrite drain_ahead by assumption. fold rd wr.
    unfold result, final. cbn [fst snd]. rewrite do_copy_buf. rewrite Hn.
    change (g_fwLogBuf (set_head_offset ?v s)) with (g_fwLogBuf s).
    change (log_area (ring (set_head_offset ?v s))) with (log_area (ring s)).
    split; [reflexivity|]. split; [apply memcpy_length; lia|].
    split; [|split].
    + intros i Hi. rewrite memcpy_lookup_in by lia.
      rewrite (Z.mod_small (rd + i)) by lia. f_equal. lia.
    + intros j Hj. apply memcpy_lookup_out; lia.
    + replace (rd + (wr - rd)) with wr by lia. apply Z.mod_small. lia.
  - (* level *)
    assert (Hn : n = 0).
    { unfold n. rewrite Heq, Z.sub_diag. apply Z.mod_0_l. exact Hrb. }
    rewrite drain_level by assumption.
    unfold result, final. cbn [fst snd]. rewrite Hn.
    change (g_fwLogBuf (set_head_offset ?v s)) with (g_fwLogBuf s).
    split; [reflexivity|]. split; [reflexivity|].
    split; [intros i Hi; lia|]. split; [reflexivity|].
    rewrite Z.add_0_r, Heq. apply Z.mod_small. lia.
  - destruct (Z.eq_dec wr 0) as [Hw0 | Hw0].
    + (* the range ends with the log area *)
      assert (Hn : n = rb_size c - rd).
      { unfold n. rewrite Hw0, mod_below by lia. lia. }
      rewrite drain_behind_end by first [assumption | lia]. fold rd.
      unfold result, final. cbn [fst snd]. rewrite do_copy_buf. rewrite Hn.
      change (g_fwLogBuf (set_head_offset ?v s)) with (g_fwLogBuf s).
      change (log_area (ring (set_head_offset ?v s))) with (log_area (ring s)).
      split; [reflexivity|]. split; [apply memcpy_length; lia|].
      split; [|split].
      * intros i Hi. rewrite memcpy_lookup_in by lia.
        rewrite (Z.mod_small (rd + i)) by lia. f_equal. lia.
      * intros j Hj. apply memcpy_lookup_out; lia.
      * replace (rd + (rb_size c - rd)) with (rb_size c) by lia.
        rewrite Z_mod_same_full. lia.
    + (* the range wraps *)
      assert (Hn : n = rb_size c - rd + wr).
      { unfold n. rewrite mod_below by lia. lia. }
      rewrite drain_behind by first [assumption | fold rd wr; lia].
      fold rd wr.
      unfold result, final. cbn [fst snd]. rewrite !do_copy_buf. rewrite Hn.
      change (log_area (ring (do_copy g_fwLogBuf_ptr ?a ?b ?d ?x)))
        with (log_area (ring x)).
      change (g_fwLogBuf (set_head_offset ?v s)) with (g_fwLogBuf s).
      change (log_area (ring (set_head_offset ?v s))) with (log_area (ring s)).
      set (inner := memcpy (g_fwLogBuf s) 0 (log_area (ring s)) rd
                           (rb_size c - rd)).
      assert (Hinner : length inner = length (g_fwLogBuf s))
        by (apply memcpy_length; lia).
      split; [reflexivity|].
      split; [rewrite memcpy_length by lia; exact Hinner|].
      split; [|split].
      * intros i Hi.
        destruct (Z.lt_ge_cases i (rb_size c - rd)) as [Hfirst | Hsecond].
        -- rewrite memcpy_lookup_out by lia.
           unfold inner. rewrite memcpy_lookup_in by lia.
           rewrite (Z.mod_small (rd + i)) by lia. f_equal. lia.
        -- rewrite memcpy_lookup_in by lia.
           rewrite (mod_above (rd + i)) by lia. f_equal. lia.
      * intros j Hj. rewrite memcpy_lookup_out by lia.
        unfold inner. apply memcpy_lookup_out; lia.
      * replace (rd + (rb_size c - rd + wr)) with (wr + 1 * rb_size c) by lia.
        rewrite Z.mod_add by exact Hrb. apply Z.mod_small. lia.
Qed.

Lemma drain_linearizes_witness :
  let c := Examples.config_of 164 in
  let s := Examples.machine 164 (Examples.ramp 100) 90 120 1
             (Some Examples.session) in
  let r := aie2_get_trace_event_content 2 c Examples.session
             g_fwLogBuf_ptr s in
  result r = Some 30
  /\ g_fwLogBuf (final r) !! 12%nat = ring_byte s 2.
Proof.
  intros c s r.
  destruct (drain_linearizes 2 c Examples.session s) as (H1 & _ & H3 & _).
  - lia.
  - vm_compute. discriminate.
  - vm_compute. discriminate.
  - reflexivity.
  - vm_compute. lia.
  - split; [exact H1|]. apply (H3 12). vm_compute. split; [discriminate | reflexivity].
Defined.

(** *** What the drain leaves alone *)

(** The copy loop changes the scratch buffer and nothing else. *)
Lemma copy_loop_only_scratch fuel c wr : forall l s,
  exists b,
    final (copy_loop fuel c g_fwLogBuf_ptr wr l s) = set_g_fwLogBuf b s.
Proof.
  assert (Hid : forall s, s = set_g_fwLogBuf (g_fwLogBuf s) s)
    by (intros []; reflexivity).
  induction fuel as [|fuel IH]; intros l s.
  - exists (g_fwLogBuf s). apply Hid.
  - cbn [copy_loop]. unfold bind.
    destruct (copy_body_cases c g_fwLogBuf_ptr wr l s)
      as [(l' & t & -> & _) | (l' & n & ->)].
    + exists (g_fwLogBuf s). apply Hid.
    + destruct (rd_ptr l' <? wr).
      * destruct (IH l' (do_copy g_fwLogBuf_ptr (offset l) (rd_ptr l) n s))
          as (b & Hb).
        destruct (copy_loop fuel c g_fwLogBuf_ptr wr l' _) as [[r s2] t2].
        unfold final in *. cbn in *. exists b. rewrite Hb. reflexivity.
      * eexists. reflexivity.
Qed.

(** After the guards the drain stores the head offset and then changes
    the scratch buffer only. *)
Lemma drain_final fuel c req s :
  rb_size c <> 0 ->
  u64 (buf req + rb_size c) <> 0 ->
  exists b,
    final (aie2_get_trace_event_content fuel c req g_fwLogBuf_ptr s)
    = set_g_fwLogBuf b (set_head_offset (wr_ptr_of (metadata (ring s))) s).
Proof.
  intros Hrb Hptr. rewrite drain_unfold by assumption.
  destruct (copy_loop_only_scratch fuel c
              (wr_ptr_wrap_of c (metadata (ring s)))
              (Locals (rd_ptr_of c (metadata (ring s))) 0 0 0)
              (set_head_offset (wr_ptr_of (metadata (ring s))) s))
    as (b & Hb).
  destruct (copy_loop fuel c g_fwLogBuf_ptr _ _ _) as [[r0 s2] t].
  unfold final in *. cbn in *. exists b. exact Hb.
Qed.

(** X14. The drain writes only what the host owns: whatever the cursors,
    the fuel and the configuration, the bytes of the log area and the
    firmware's [tail_offset] are the same afterwards, and so are the
    device handle, the live resources and the lock; only [head_offset]
    and the scratch buffer can change. *)
Theorem drain_frame fuel c req s :
  let s' := final (aie2_get_trace_event_content fuel c req g_fwLogBuf_ptr s) in
  log_area (ring s') = log_area (ring s)
  /\ tail_offset (metadata (ring s')) = tail_offset (metadata (ring s))
  /\ ndev s' = ndev s
  /\ kmem_live s' = kmem_live s
  /\ dma_live s' = dma_live s
  /\ irq_live s' = irq_live s
  /\ dev_locked s' = dev_locked s.
Proof.
  intros s'. subst s'.
  destruct (Z.eq_dec (rb_size c) 0) as [Hrb | Hrb].
  { unfold aie2_get_trace_event_content. rewrite Hrb. cbn.
    repeat split; reflexivity. }
  destruct (Z.eq_dec (u64 (buf req + rb_size c)) 0) as [Hptr | Hptr].
  { unfold aie2_get_trace_event_content.
    destruct (Z.eqb_spec (rb_size c) 0); [contradiction|].
    rewrite Hptr. cbn. repeat split; reflexivity. }
  destruct (drain_final fuel c req s Hrb Hptr) as (b & ->).
  repeat split; reflexivity.
Qed.

(** X15. A drain consumes everything it saw: a second drain right after
    the first, with the firmware having written nothing in between,
    finds the cursors level, returns 0, copies nothing and leaves the
    machine as the first drain left it. This holds for every
    [tail_offset], also beyond 2^32. *)
Theorem drain_again_is_empty fuel fuel' c req s :
  rb_size c <> 0 ->
  u64 (buf req + rb_size c) <> 0 ->
  let s1 := final (aie2_get_trace_event_content fuel c req g_fwLogBuf_ptr s) in
  aie2_get_trace_event_content (S fuel') c req g_fwLogBuf_ptr s1
  = (Some 0, s1, [HeadOffsetStore (wr_ptr_of (metadata (ring s)))]).
Proof.
  intros Hrb Hptr s1. subst s1.
  destruct (drain_final fuel c req s Hrb Hptr) as (b & ->).
  set (w := wr_ptr_of (metadata (ring s))).
  set (s1 := set_g_fwLogBuf b (set_head_offset w s)).
  pose proof (rb_size_bound c) as Hb.
  assert (Hw : 0 <= w < 2 ^ 32) by apply u32_bound.
  assert (Hmod : 0 <= w mod rb_size c < rb_size c)
    by (apply Z.mod_pos_bound; lia).
  assert (Hwr1 : wr_ptr_of (metadata (ring s1)) = w) by reflexivity.
  assert (Hrd : rd_ptr_of c (metadata (ring s1)) = w mod rb_size c).
  { unfold rd_ptr_of. change (head_offset (metadata (ring s1))) with w.
    apply u32_small. lia. }
  assert (Hwrap : wr_ptr_wrap_of c (metadata (ring s1)) = w mod rb_size c).
  { unfold wr_ptr_wrap_of. rewrite Hwr1. reflexivity. }
  rewrite drain_level by first [assumption | congruence].
  rewrite Hwr1. reflexivity.
Qed.

Lemma drain_again_is_empty_witness :
  let c := Examples.config_of 164 in
  let s := Examples.machine 164 (Examples.ramp 100) 90 120 1
             (Some Examples.session) in
  let s1 := final (aie2_get_trace_event_content 2 c Examples.session
                     g_fwLogBuf_ptr s) in
  aie2_get_trace_event_content 2 c Examples.session g_fwLogBuf_ptr s1
  = (Some 0, s1, [HeadOffsetStore 120]).
Proof.
  intros c s s1.
  apply (drain_again_is_empty 2 1 c Examples.session s);
    vm_compute; discriminate.
Defined.

(** ** The decoder and the interrupt handler *)

(** X16. The print loop decodes one record per stride that starts below
    the byte count and then returns without touching the machine: for a
    count [n] and a positive stride [L] it emits exactly the lines of the
    records at offsets 0, L, 2L, ..., [n / L] of them when [n] is a
    multiple of [L] and one more otherwise, so a trailing partial record
    is decoded as well, from the bytes that follow the count. *)
Theorem print_records_exact fuel c req n s :
  0 < MAX_ONE_TIME_LOG_INFO_LEN c ->
  0 <= n ->
  (Z.to_nat n < fuel)%nat ->
  let L := MAX_ONE_TIME_LOG_INFO_LEN c in
  print_records fuel c req 0 n s =
    (Some tt, s,
     map (fun k =>
            fw_log_line req (load_log_data (g_fwLogBuf s) (Z.of_nat k * L)))
         (seq 0 (strides n L)))
  /\ (n mod L = 0 -> Z.of_nat (strides n L) = n / L)
  /\ (n mod L <> 0 -> Z.of_nat (strides n L) = n / L + 1).
Proof.
  intros HL Hn Hfuel L. split; [|split].
  - rewrite (print_records_run c req n s HL fuel 0) by (rewrite Z.sub_0_r; lia).
    rewrite Z.sub_0_r. reflexivity.
  - intros Hmod. unfold strides. fold L.
    pose proof (Z.div_mod n L ltac:(lia)) as Hdm. rewrite Hmod in Hdm.
    assert (Hq : 0 <= n / L) by (apply Z.div_pos; lia).
    destruct (Z.eq_dec n 0) as [-> | Hn0].
    + rewrite Z.add_0_l. cbn [Z.div]. rewrite Z.div_small by lia.
      rewrite Zdiv_0_l. reflexivity.
    + replace (n + L - 1) with (L - 1 + (n / L) * L) by lia.
      rewrite Z.div_add by lia. rewrite Z.div_small by lia. lia.
  - intros Hmod. unfold strides. fold L.
    pose proof (Z.div_mod n L ltac:(lia)) as Hdm.
    pose proof (Z.mod_pos_bound n L ltac:(lia)) as Hr.
    assert (Hq : 0 <= n / L) by (apply Z.div_pos; lia).
    replace (n + L - 1) with (n mod L - 1 + (n / L + 1) * L) by lia.
    rewrite Z.div_add by lia. rewrite Z.div_small by lia. lia.
Qed.

Lemma print_records_exact_witness :
  let c := Examples.config_of 164 in
  let s := Examples.machine 164 [] 0 0 1 (Some Examples.session) in
  length (events (print_records 21 c Examples.session 0 20 s)) = 2%nat.
Proof.
  intros c s.
  destruct (print_records_exact 21 c Examples.session 20 s) as (Hrun & _ & _).
  - reflexivity.
  - lia.
  - vm_compute. lia.
  - rewrite Hrun. reflexivity.
Defined.

(** The decoder as one run, on a machine with a session. *)
Lemma print_run fuel c s req :
  event_trace_req (ndev s) = Some req ->
  0 < MAX_ONE_TIME_LOG_INFO_LEN c ->
  (2 <= fuel)%nat ->
  (Z.to_nat (rb_size c) < fuel)%nat ->
  exists n s1 t,
    aie2_get_trace_event_content fuel c req g_fwLogBuf_ptr s = (Some n, s1, t)
    /\ 0 <= n <= rb_size c
    /\ (n = 0 ->
        aie2_print_trace_event_log fuel c s =
          (Some tt, s1, t ++ [Log DBG "FW log size in bytes %u" [0]]))
    /\ (n <> 0 ->
        let scratch := <[Z.to_nat n := x00]> (g_fwLogBuf s1) in
        aie2_print_trace_event_log fuel c s =
          (Some tt, set_g_fwLogBuf scratch s1,
           t ++ Log DBG "FW log size in bytes %u" [n]
             :: NulStore n
             :: map (fun k =>
                       fw_log_line req
                         (load_log_data scratch
                            (Z.of_nat k * MAX_ONE_TIME_LOG_INFO_LEN c)))
                    (seq 0 (strides n (MAX_ONE_TIME_LOG_INFO_LEN c))))).
Proof.
  intros Hreq HL Hfuel Hfuel'.
  destruct (drain_total fuel c req g_fwLogBuf_ptr s Hfuel)
    as (n & s1 & t & Hdrain & Hn & _ & _).
  exists n, s1, t. split; [exact Hdrain|]. split; [exact Hn|].
  unfold aie2_print_trace_event_log, bind, get. cbn.
  rewrite Hreq, Hdrain. unfold emit, modify, truthy. cbn. split.
  - intros ->. cbn. reflexivity.
  - intros Hn0.
    destruct (Z.eqb_spec n 0); [contradiction|]. cbn [negb].
    rewrite (print_records_run c req n _ HL fuel 0)
      by (rewrite Z.sub_0_r; lia).
    rewrite Z.sub_0_r. reflexivity.
Qed.

(** The decoder always returns. *)
Lemma print_returns fuel c s :
  0 < MAX_ONE_TIME_LOG_INFO_LEN c ->
  (2 <= fuel)%nat ->
  (Z.to_nat (rb_size c) < fuel)%nat ->
  result (aie2_print_trace_event_log fuel c s) = Some tt.
Proof.
  intros HL Hfuel Hfuel'.
  destruct (event_trace_req (ndev s)) as [req|] eqn:Hreq.
  - destruct (print_run fuel c s req Hreq HL Hfuel Hfuel')
      as (n & s1 & t & _ & _ & Hzero & Hpos).
    destruct (Z.eq_dec n 0) as [Hn | Hn].
    + rewrite (Hzero Hn). reflexivity.
    + rewrite (Hpos Hn). reflexivity.
  - unfold aie2_print_trace_event_log, bind, get. cbn. rewrite Hreq.
    reflexivity.
Qed.

(** X17. The decoder on a machine with a session always returns. When
    the drain yields nothing it logs the size and decodes nothing,
    leaving the scratch buffer as the drain left it. Otherwise it first
    stores a NUL at index [n], the byte count, and only then decodes: the
    lines are those of the records at strides 0, L, 2L, ... below [n] of
    the scratch buffer after the NUL store, so a trailing partial record
    sees that NUL. Without a session it only reports the missing buffer
    and touches nothing. *)
Theorem print_trace_event_log_run fuel c s :
  0 < MAX_ONE_TIME_LOG_INFO_LEN c ->
  (2 <= fuel)%nat ->
  (Z.to_nat (rb_size c) < fuel)%nat ->
  (event_trace_req (ndev s) = None ->
   aie2_print_trace_event_log fuel c s =
     (Some tt, s, [Log ERR "FW resp trace buffer is null!" []]))
  /\ (forall req,
        event_trace_req (ndev s) = Some req ->
        exists n s1 t,
          aie2_get_trace_event_content fuel c req g_fwLogBuf_ptr s
          = (Some n, s1, t)
          /\ 0 <= n <= rb_size c
          /\ (n = 0 ->
              aie2_print_trace_event_log fuel c s =
                (Some tt, s1, t ++ [Log DBG "FW log size in bytes %u" [0]]))
          /\ (n <> 0 ->
              let scratch := <[Z.to_nat n := x00]> (g_fwLogBuf s1) in
              aie2_print_trace_event_log fuel c s =
                (Some tt, set_g_fwLogBuf scratch s1,
                 t ++ Log DBG "FW log size in bytes %u" [n]
                   :: NulStore n
                   :: map (fun k =>
                             fw_log_line req
                               (load_log_data scratch
                                  (Z.of_nat k * MAX_ONE_TIME_LOG_INFO_LEN c)))
                          (seq 0 (strides n (MAX_ONE_TIME_LOG_INFO_LEN c)))))).
Proof.
  intros HL Hfuel Hfuel'. split.
  - intros Hreq. unfold aie2_print_trace_event_log, bind, get. cbn.
    rewrite Hreq. reflexivity.
  - intros req Hreq. apply print_run; assumption.
Qed.

Lemma print_trace_event_log_run_witness :
  aie2_print_trace_event_log 101 (Examples.config_of 164)
    (Examples.machine 164 [] 0 0 1 None)
  = (Some tt, Examples.machine 164 [] 0 0 1 None,
     [Log ERR "FW resp trace buffer is null!" []]).
Proof.
  apply (proj1 (print_trace_event_log_run 101 (Examples.config_of 164)
                  (Examples.machine 164 [] 0 0 1 None)
                  ltac:(reflexivity) ltac:(lia) ltac:(vm_compute; lia))).
  reflexivity.
Defined.

(** X18. The interrupt handler always acknowledges and always reports
    the interrupt handled: it forwards the event to the mailbox tracing
    and writes the interrupt-clearing register before anything else, and
    returns [IRQ_HANDLED]. Only when the flag equals
    [EVENT_TRACE_ENABLED] does it run the decoder; otherwise the machine
    is untouched and nothing else happens. *)
Theorem irq_handler_run fuel c irq s :
  0 < MAX_ONE_TIME_LOG_INFO_LEN c ->
  (2 <= fuel)%nat ->
  (Z.to_nat (rb_size c) < fuel)%nat ->
  let r := log_buffer_irq_handler fuel c irq s in
  result r = Some IRQ_HANDLED
  /\ (event_trace_enabled (ndev s) <> EVENT_TRACE_ENABLED c ->
      final r = s
      /\ events r = [TraceMboxIrq irq; clear_msix_write c (ndev s)])
  /\ (event_trace_enabled (ndev s) = EVENT_TRACE_ENABLED c ->
      final r = final (aie2_print_trace_event_log fuel c s)
      /\ events r =
           TraceMboxIrq irq :: clear_msix_write c (ndev s)
             :: events (aie2_print_trace_event_log fuel c s)).
Proof.
  intros HL Hfuel Hfuel' r. subst r.
  pose proof (print_returns fuel c s HL Hfuel Hfuel') as Hret.
  cbv beta iota zeta delta
    [log_buffer_irq_handler clear_event_trace_msix clear_msix_write
     bind get emit ret].
  destruct (Z.eqb_spec (event_trace_enabled (ndev s)) (EVENT_TRACE_ENABLED c))
    as [Hon | Hoff].
  - destruct (aie2_print_trace_event_log fuel c s) as [[r0 s2] t2].
    unfold result, final, events in *. cbn in *. subst r0.
    rewrite app_nil_r.
    split; [reflexivity|]. split; [intros H; contradiction|].
    intros _. split; reflexivity.
  - cbn. split; [reflexivity|]. split; [|intros H; contradiction].
    intros _. split; reflexivity.
Qed.

Lemma irq_handler_run_witness :
  let c := Examples.config_of 164 in
  let s := Examples.machine 164 (Examples.ramp 100) 90 120 0
             (Some Examples.session) in
  let r := log_buffer_irq_handler 101 c 5 s in
  result r = Some 1
  /\ final r = s
  /\ events r = [TraceMboxIrq 5; Writel 0 0x1100].
Proof.
  intros c s r.
  destruct (irq_handler_run 101 c 5 s ltac:(reflexivity) ltac:(lia)
              ltac:(vm_compute; lia)) as (H1 & H2 & _).
  split; [exact H1|]. apply H2. discriminate.
Defined.

(** X19. The anchor and the decoder agree on the time base: after
    [aie2_set_trace_timestamp] recorded the firmware counter of the start
    response and the host clock, a record stamped [24 k + j] ticks after
    that counter, with [j < 24], is printed at the host clock in
    microseconds (nanoseconds divided by 1000, rounded down) plus [k]. *)
Theorem anchor_then_print e s rq r k j :
  event_trace_req (ndev s) = Some rq ->
  record_in_range r ->
  0 <= current_timestamp e ->
  0 <= k -> 0 <= j < 24 ->
  counter r = current_timestamp e + 24 * k + j ->
  0 <= ktime_get_ns e < 2 ^ 64 ->
  ktime_get_ns e / 1000 + k < 2 ^ 64 ->
  exists rq',
    event_trace_req (ndev (final (aie2_set_trace_timestamp e s))) = Some rq'
    /\ fw_log_line rq' r =
         Log INFO "[%llu][FW] type: 0x%04x payload:0x%016llx"
             [ktime_get_ns e / 1000 + k; type r; spec_logical_payload r].
Proof.
  intros Hrq Hr Hct Hk Hj Hcnt Hns Hfit.
  unfold aie2_set_trace_timestamp, modify_ndev, modify, final. cbn.
  rewrite Hrq. cbn. eexists. split; [reflexivity|].
  rewrite fw_log_line_spec by exact Hr.
  cbn [resp_timestamp sys_start_time].
  destruct Hr as (Hc & _).
  replace (counter r - current_timestamp e) with (j + k * 24) by lia.
  rewrite (u64_small (j + k * 24)) by lia.
  rewrite Z.div_add by lia. rewrite (Z.div_small j) by lia.
  rewrite (u64_small (ktime_get_ns e)) by lia.
  assert (0 <= ktime_get_ns e / 1000) by (apply Z.div_pos; lia).
  rewrite u64_small by lia.
  do 2 f_equal. lia.
Qed.

Lemma anchor_then_print_witness :
  let s := Examples.machine 164 [] 0 0 1 (Some Examples.session) in
  let r := load_log_data Examples.record_bytes 0 in
  exists rq',
    event_trace_req (ndev (final (aie2_set_trace_timestamp Examples.env_ok s)))
    = Some rq'
    /\ fw_log_line rq' r =
         Log INFO "[%llu][FW] type: 0x%04x payload:0x%016llx"
             [5002; 0xa5; 0x010203040506].
Proof.
  intros s r.
  destruct (anchor_then_print Examples.env_ok s Examples.session r 2 0)
    as (rq' & H1 & H2).
  - reflexivity.
  - apply load_log_data_in_range.
  - vm_compute. discriminate.
  - lia.
  - lia.
  - reflexivity.
  - vm_compute. split; [discriminate | reflexivity].
  - vm_compute. reflexivity.
  - exists rq'. split; [exact H1 | exact H2].
Defined.
